(** * cmzqc: the mzQC document model, its JSON codec, the structural
    validator, the OBO term cache and the file boundary.

    The development follows [src/mzqc.cpp] and [mzqc.hpp].  A
    [nlohmann::json] value is an inductive type whose objects are finite maps
    keyed by strings (the library stores them in a [std::map]); member
    functions that assign to [*this] take the receiver as an argument and
    return its new state; library calls that throw return a [result].  A
    decoder that throws leaves its receiver partly assigned; the model keeps
    only the exception, and the statements below are about decodings that
    complete.  Owning pointers to single-owner children are the children
    themselves, and a possibly null pointer is an [option]. *)

From Stdlib Require Import ZArith Ascii Floats.SpecFloat.
From stdpp Require Import gmap strings list fin_maps.

Set Default Proof Using "Type".
#[local] Set Warnings "-register-all".

(** ** The JSON value of the library *)

(** The value kinds of [nlohmann::json] that a parsed or built document can
    hold.  Integers, unsigned integers and floating-point numbers are three
    distinct kinds, as in the library; a floating-point number is kept as
    its sign, mantissa and exponent and is never computed with. *)
Inductive json : Type :=
  | JNull
  | JBoolean (b : bool)
  | JInteger (z : Z)
  | JUnsigned (n : N)
  | JFloat (f : spec_float)
  | JString (s : string)
  | JArray (l : list json)
  | JObject (m : gmap string json).

(** Exceptions: the library's [type_error] with its numeric id, and
    [std::runtime_error] with its message. *)
Inductive exn : Type :=
  | type_error (id : Z)
  | runtime_error (what : string).

Inductive result (A : Type) : Type :=
  | Ok (a : A)
  | Throw (e : exn).
Arguments Ok {A} a.
Arguments Throw {A} e.

#[global] Instance result_ret : MRet result := @Ok.
#[global] Instance result_bind : MBind result := λ A B f r,
  match r with
  | Ok a => f a
  | Throw e => Throw e
  end.
#[global] Instance result_fmap : FMap result := λ A B f r,
  match r with
  | Ok a => Ok (f a)
  | Throw e => Throw e
  end.

Module Json.

(** [j.find(key)] on an object; [None] on every other kind.  A guarded
    read [if (j.contains(k)) ... j[k] ...] is a match on [get]. *)
Definition get (j : json) (key : string) : option json :=
  match j with
  | JObject m => m !! key
  | _ => None
  end.

(** [j.contains(key)] *)
Definition contains (j : json) (key : string) : bool :=
  match get j key with
  | Some _ => true
  | None => false
  end.

Definition is_null (j : json) : bool :=
  match j with JNull => true | _ => false end.

Definition is_object (j : json) : bool :=
  match j with JObject _ => true | _ => false end.

Definition is_array (j : json) : bool :=
  match j with JArray _ => true | _ => false end.

(** [j.get<std::string>()]: type_error 302 on a value that is no string. *)
Definition get_string (j : json) : result string :=
  match j with
  | JString s => Ok s
  | _ => Throw (type_error 302)
  end.

(** [j.value(key, default_value)] at a string default: the stored string
    when the key is present, the default when it is absent; type_error 302
    when the stored value is no string and type_error 306 when [j] is no
    object. *)
Definition value (j : json) (key : string) (default_value : string)
  : result string :=
  match j with
  | JObject m =>
      match m !! key with
      | Some v => get_string v
      | None => Ok default_value
      end
  | _ => Throw (type_error 306)
  end.

(** [j[key] = v] on a non-const value: a null receiver first becomes an
    empty object.  (On the other kinds the library throws type_error 305;
    every receiver in this program is null or an object.) *)
Definition set (key : string) (v : json) (j : json) : json :=
  match j with
  | JNull => JObject {[ key := v ]}
  | JObject m => JObject (<[ key := v ]> m)
  | _ => j
  end.

(** [j[key]] on a non-const object: the stored value, or the null value
    that the access inserts when the key is absent. *)
Definition at_ (key : string) (j : json) : json :=
  match get j key with
  | Some v => v
  | None => JNull
  end.

(** An assignment through a nested access, [j[key][..] = ..]: the value
    under [key] is replaced by its image under [f]. *)
Definition update (key : string) (f : json → json) (j : json) : json :=
  set key (f (at_ key j)) j.

(** An object built from an initializer list of key/value pairs. *)
Definition object_of (l : list (string * json)) : json :=
  JObject (list_to_map l).

(** Conversion of a [std::vector<std::string>] to an array of strings. *)
Definition of_strings (l : list string) : json := JArray (JString <$> l).

End Json.

(** Guarded assignment [if (c) j[key] = v;]. *)
Definition set_if (c : bool) (key : string) (v : json) (j : json) : json :=
  if c then Json.set key v j else j.

(** [s.empty()] *)
Definition empty (s : string) : bool :=
  match s with EmptyString => true | String _ _ => false end.

(** [v.empty()] for a vector *)
Definition vempty {A} (l : list A) : bool :=
  match l with [] => true | _ :: _ => false end.

(** ** ControlledVocabulary *)
Module ControlledVocabulary.

Record t : Type := mk {
  id : string;
  name : string;
  uri : string;
  version : string;
}.

(** The constructor takes name, uri and version; [id] starts empty. *)
Definition make (name uri version : string) : t :=
  {| id := ""; name := name; uri := uri; version := version |}.

Definition default : t := make "" "" "".

Definition toJson (self : t) : json :=
  let j := JNull in
  let j := Json.set "id" (JString (id self)) j in
  let j := Json.set "name" (JString (name self)) j in
  let j := Json.set "uri" (JString (uri self)) j in
  let j := Json.set "version" (JString (version self)) j in
  j.

Definition fromJson (j : json) (self : t) : result t :=
  id ← Json.value j "id" "";
  name ← Json.value j "name" "";
  uri ← Json.value j "uri" "";
  version ← Json.value j "version" "";
  Ok {| id := id; name := name; uri := uri; version := version |}.

End ControlledVocabulary.

(** ** CvParameter *)
Module CvParameter.

Record t : Type := mk {
  accession : string;
  name : string;
  value : string;
  cvRef : string;
}.

Definition default : t := mk "" "" "" "".

Definition toJson (self : t) : json :=
  let j := JNull in
  let j := Json.set "accession" (JString (accession self)) j in
  let j := Json.set "name" (JString (name self)) j in
  let j := set_if (negb (empty (value self))) "value" (JString (value self)) j in
  let j := set_if (negb (empty (cvRef self))) "cvRef" (JString (cvRef self)) j in
  j.

Definition fromJson (j : json) (self : t) : result t :=
  accession ← Json.value j "accession" "";
  name ← Json.value j "name" "";
  value ← Json.value j "value" "";
  cvRef ← Json.value j "cvRef" "";
  Ok {| accession := accession; name := name; value := value; cvRef := cvRef |}.

End CvParameter.

(** ** AnalysisSoftware *)
Module AnalysisSoftware.

Record t : Type := mk {
  accession : string;
  name : string;
  version : string;
  uri : string;
}.

Definition default : t := mk "" "" "" "".

Definition toJson (self : t) : json :=
  let j := JNull in
  let j := Json.set "accession" (JString (accession self)) j in
  let j := Json.set "name" (JString (name self)) j in
  let j := Json.set "version" (JString (version self)) j in
  let j := set_if (negb (empty (uri self))) "uri" (JString (uri self)) j in
  j.

Definition fromJson (j : json) (self : t) : result t :=
  accession ← Json.value j "accession" "";
  name ← Json.value j "name" "";
  version ← Json.value j "version" "";
  uri ← Json.value j "uri" "";
  Ok {| accession := accession; name := name; version := version; uri := uri |}.

End AnalysisSoftware.

(** ** InputFile *)
Module InputFile.

(** [fileFormat] is a possibly null owning pointer. *)
Record t : Type := mk {
  location : string;
  name : string;
  fileFormat : option CvParameter.t;
  fileProperties : list CvParameter.t;
}.

Definition default : t := mk "" "" None [].

Definition toJson (self : t) : json :=
  let j := JNull in
  let j := Json.set "location" (JString (location self)) j in
  let j := Json.set "name" (JString (name self)) j in
  let j := match fileFormat self with
           | Some ff => Json.set "fileFormat" (CvParameter.toJson ff) j
           | None => j
           end in
  let j := set_if (negb (vempty (fileProperties self))) "fileProperties"
             (JArray (CvParameter.toJson <$> fileProperties self)) j in
  j.

Definition fromJson (j : json) (self : t) : result t :=
  location ← Json.value j "location" "";
  name ← Json.value j "name" "";
  fileFormat ←
    match Json.get j "fileFormat" with
    | Some ff => Some <$> CvParameter.fromJson ff CvParameter.default
    | None => Ok (fileFormat self)
    end;
  fileProperties ←
    match Json.get j "fileProperties" with
    | Some (JArray props) =>
        mapM (λ prop, CvParameter.fromJson prop CvParameter.default) props
    | _ => Ok (fileProperties self)
    end;
  Ok {| location := location; name := name;
        fileFormat := fileFormat; fileProperties := fileProperties |}.

End InputFile.

(** ** QualityMetric *)
Module QualityMetric.

(** [value] is the open-shape payload, any JSON value. *)
Record t : Type := mk {
  accession : string;
  name : string;
  description : string;
  value : json;
  unit : string;
}.

Definition default : t := mk "" "" "" JNull "".

Definition toJson (self : t) : json :=
  let j := JNull in
  let j := Json.set "accession" (JString (accession self)) j in
  let j := Json.set "name" (JString (name self)) j in
  let j := set_if (negb (empty (description self))) "description"
             (JString (description self)) j in
  let j := set_if (negb (Json.is_null (value self))) "value" (value self) j in
  let j := set_if (negb (empty (unit self))) "unit" (JString (unit self)) j in
  j.

Definition fromJson (j : json) (self : t) : result t :=
  accession ← Json.value j "accession" "";
  name ← Json.value j "name" "";
  description ← Json.value j "description" "";
  let value := match Json.get j "value" with
               | Some v => v
               | None => value self
               end in
  unit ← Json.value j "unit" "";
  Ok {| accession := accession; name := name; description := description;
        value := value; unit := unit |}.

End QualityMetric.

(** ** RunQuality *)
Module RunQuality.

Record t : Type := mk {
  label : string;
  inputFiles : list InputFile.t;
  analysisSoftware : list AnalysisSoftware.t;
  metrics : list QualityMetric.t;
}.

Definition default : t := mk "" [] [] [].

Definition toJson (self : t) : json :=
  let j := JNull in
  let j := Json.set "label" (JString (label self)) j in
  let j := Json.set "inputFiles" (JArray (InputFile.toJson <$> inputFiles self)) j in
  let j := Json.set "analysisSoftware"
             (JArray (AnalysisSoftware.toJson <$> analysisSoftware self)) j in
  let j := Json.set "metrics" (JArray (QualityMetric.toJson <$> metrics self)) j in
  j.

Definition fromJson (j : json) (self : t) : result t :=
  label ← Json.value j "label" "";
  inputFiles ←
    match Json.get j "inputFiles" with
    | Some (JArray files) =>
        mapM (λ file, InputFile.fromJson file InputFile.default) files
    | _ => Ok (inputFiles self)
    end;
  analysisSoftware ←
    match Json.get j "analysisSoftware" with
    | Some (JArray sws) =>
        mapM (λ software, AnalysisSoftware.fromJson software AnalysisSoftware.default) sws
    | _ => Ok (analysisSoftware self)
    end;
  metrics ←
    match Json.get j "metrics" with
    | Some (JArray ms) =>
        mapM (λ metric, QualityMetric.fromJson metric QualityMetric.default) ms
    | _ => Ok (metrics self)
    end;
  Ok {| label := label; inputFiles := inputFiles;
        analysisSoftware := analysisSoftware; metrics := metrics |}.

End RunQuality.

(** ** SetQuality *)
Module SetQuality.

Record t : Type := mk {
  label : string;
  setRefs : list string;
  metrics : list QualityMetric.t;
}.

Definition default : t := mk "" [] [].

Definition toJson (self : t) : json :=
  let j := JNull in
  let j := Json.set "label" (JString (label self)) j in
  let j := Json.set "setRefs" (Json.of_strings (setRefs self)) j in
  let j := Json.set "metrics" (JArray (QualityMetric.toJson <$> metrics self)) j in
  j.

Definition fromJson (j : json) (self : t) : result t :=
  label ← Json.value j "label" "";
  setRefs ←
    match Json.get j "setRefs" with
    | Some (JArray refs) => mapM Json.get_string refs
    | _ => Ok (setRefs self)
    end;
  metrics ←
    match Json.get j "metrics" with
    | Some (JArray ms) =>
        mapM (λ metric, QualityMetric.fromJson metric QualityMetric.default) ms
    | _ => Ok (metrics self)
    end;
  Ok {| label := label; setRefs := setRefs; metrics := metrics |}.

End SetQuality.

(** ** The clock: [std::gmtime] and [std::put_time]

    [getCurrentIsoTime] reads the system clock and formats it.  The clock
    reading (seconds since the epoch, a [time_t]) is an explicit argument;
    [gmtime] is the C library's conversion to broken-down UTC time in the
    proleptic Gregorian calendar and [put_time] formats the fields with the
    pattern of the source, [%Y-%m-%dT%H:%M:%SZ]. *)
Module Clock.
#[local] Open Scope Z_scope.

(** [struct tm]: months count from 0 and years from 1900. *)
Record tm : Type := mk_tm {
  tm_sec : Z;
  tm_min : Z;
  tm_hour : Z;
  tm_mday : Z;
  tm_mon : Z;
  tm_year : Z;
}.

(** Year, month (1..12) and day (1..31) of a day count since 1970-01-01.
    The 400-year cycle of 146097 days starts on a first of March. *)
Definition civil_from_days (days : Z) : Z * Z * Z :=
  let z := days + 719468 in
  let era := z / 146097 in
  let doe := z - era * 146097 in
  let yoe := (doe - doe / 1460 + doe / 36524 - doe / 146096) / 365 in
  let y := yoe + era * 400 in
  let doy := doe - (365 * yoe + yoe / 4 - yoe / 100) in
  let mp := (5 * doy + 2) / 153 in
  let d := doy - (153 * mp + 2) / 5 + 1 in
  let m := if mp <? 10 then mp + 3 else mp - 9 in
  (if m <=? 2 then y + 1 else y, m, d).

Definition gmtime (t : Z) : tm :=
  let '(y, m, d) := civil_from_days (t / 86400) in
  let rem := t mod 86400 in
  {| tm_sec := rem mod 60; tm_min := rem mod 3600 / 60; tm_hour := rem / 3600;
     tm_mday := d; tm_mon := m - 1; tm_year := y - 1900 |}.

Definition digit (k : Z) : ascii := ascii_of_nat (48 + Z.to_nat k).

(** A field printed on two digits with a leading zero ([%m %d %H %M %S]). *)
Definition dec2 (n : Z) : string :=
  String (digit (n / 10)) (String (digit (n mod 10)) "").

(** The decimal digits of a number, without padding; twenty digits cover
    every 64-bit value. *)
Fixpoint decimal_go (digits : nat) (n : Z) (acc : string) : string :=
  match digits with
  | O => acc
  | S digits =>
      let acc := String (digit (n mod 10)) acc in
      if n / 10 =? 0 then acc else decimal_go digits (n / 10) acc
  end.

Definition decimal (n : Z) : string :=
  if n <? 0 then String "-" (decimal_go 20 (- n) "") else decimal_go 20 n "".

(** [put_time(tm, "%Y-%m-%dT%H:%M:%SZ")]; [%Y] is the full year in decimal. *)
Definition put_time (b : tm) : string :=
  decimal (tm_year b + 1900) +:+ "-" +:+ dec2 (tm_mon b + 1) +:+ "-" +:+
  dec2 (tm_mday b) +:+ "T" +:+ dec2 (tm_hour b) +:+ ":" +:+
  dec2 (tm_min b) +:+ ":" +:+ dec2 (tm_sec b) +:+ "Z".

(** *** Well-formed timestamps *)

Definition is_digit (c : ascii) : bool :=
  let n := Z.of_nat (nat_of_ascii c) in (48 <=? n) && (n <=? 57).

Definition num2 (a b : ascii) : Z :=
  10 * (Z.of_nat (nat_of_ascii a) - 48) + (Z.of_nat (nat_of_ascii b) - 48).

Definition between (lo hi n : Z) : bool := (lo <=? n) && (n <=? hi).

(** The extended ISO-8601 form [YYYY-MM-DDThh:mm:ssZ]: twenty characters,
    digits and separators in place, every field within its range. *)
Definition is_iso8601_utc (s : string) : bool :=
  match String.list_ascii_of_string s with
  | [y1; y2; y3; y4; c1; m1; m2; c2; d1; d2; c3; h1; h2; c4; n1; n2; c5; s1; s2; c6] =>
      forallb is_digit [y1; y2; y3; y4; m1; m2; d1; d2; h1; h2; n1; n2; s1; s2]
      && Ascii.eqb c1 "-" && Ascii.eqb c2 "-" && Ascii.eqb c3 "T"
      && Ascii.eqb c4 ":" && Ascii.eqb c5 ":" && Ascii.eqb c6 "Z"
      && between 1 12 (num2 m1 m2) && between 1 31 (num2 d1 d2)
      && between 0 23 (num2 h1 h2) && between 0 59 (num2 n1 n2)
      && between 0 60 (num2 s1 s2)
  | _ => false
  end.

End Clock.

(** ** MzQCFile, the document *)
Module MzQCFile.

Record t : Type := mk {
  creationDate : string;
  version : string;
  contactName : string;
  contactAddress : string;
  description : string;
  controlledVocabularies : list ControlledVocabulary.t;
  runQualities : list RunQuality.t;
  setQualities : list SetQuality.t;
}.

(** [now] is the reading of [std::chrono::system_clock::now()] as a
    [time_t]. *)
Definition getCurrentIsoTime (now : Z) : string :=
  Clock.put_time (Clock.gmtime now).

(** The constructor; it reads the clock only for an empty [creationDate]. *)
Definition make (now : Z) (creationDate version contactName contactAddress
    description : string) (runQualities : list RunQuality.t)
    (setQualities : list SetQuality.t) : t :=
  {| creationDate := if empty creationDate then getCurrentIsoTime now
                     else creationDate;
     version := version;
     contactName := contactName;
     contactAddress := contactAddress;
     description := description;
     controlledVocabularies := [];
     runQualities := runQualities;
     setQualities := setQualities |}.

(** The default arguments of the constructor. *)
Definition default (now : Z) : t := make now "" "1.0.0" "" "" "" [] [].

(** [if (c) j["mzQC"][key] = v;] *)
Definition set_inner_if (c : bool) (key : string) (v : json) (j : json) : json :=
  if c then Json.update "mzQC" (Json.set key v) j else j.

Definition toJson (self : t) : json :=
  let j := JNull in
  let j := Json.set "mzQC"
             (Json.object_of [("version", JString (version self));
                              ("creationDate", JString (creationDate self))]) j in
  let j := set_inner_if (negb (empty (contactName self)))
             "contactName" (JString (contactName self)) j in
  let j := set_inner_if (negb (empty (contactAddress self)))
             "contactAddress" (JString (contactAddress self)) j in
  let j := set_inner_if (negb (empty (description self)))
             "description" (JString (description self)) j in
  let j := set_inner_if (negb (vempty (controlledVocabularies self)))
             "controlledVocabularies"
             (JArray (ControlledVocabulary.toJson <$> controlledVocabularies self)) j in
  let j := set_inner_if (negb (vempty (runQualities self)))
             "runQualities" (JArray (RunQuality.toJson <$> runQualities self)) j in
  let j := set_inner_if (negb (vempty (setQualities self)))
             "setQualities" (JArray (SetQuality.toJson <$> setQualities self)) j in
  j.

(** The object decoded from: the value under [mzQC] when the key is
    there, the document itself otherwise. *)
Definition root (j : json) : json :=
  match Json.get j "mzQC" with
  | Some inner => inner
  | None => j
  end.

Definition fromJson (now : Z) (j : json) (self : t) : result t :=
  let mzqc := root j in
  creationDate ←
    match Json.get mzqc "creationDate" with
    | Some v => Json.get_string v
    | None => Ok (getCurrentIsoTime now)
    end;
  version ← Json.value mzqc "version" "";
  contactName ← Json.value mzqc "contactName" "";
  contactAddress ← Json.value mzqc "contactAddress" "";
  description ← Json.value mzqc "description" "";
  controlledVocabularies ←
    match Json.get mzqc "controlledVocabularies" with
    | Some (JArray vs) =>
        mapM (λ v, ControlledVocabulary.fromJson v ControlledVocabulary.default) vs
    | _ => Ok (controlledVocabularies self)
    end;
  runQualities ←
    match Json.get mzqc "runQualities" with
    | Some (JArray rqs) =>
        mapM (λ rq, RunQuality.fromJson rq RunQuality.default) rqs
    | _ => Ok (runQualities self)
    end;
  setQualities ←
    match Json.get mzqc "setQualities" with
    | Some (JArray sqs) =>
        mapM (λ sq, SetQuality.fromJson sq SetQuality.default) sqs
    | _ => Ok (setQualities self)
    end;
  Ok {| creationDate := creationDate; version := version;
        contactName := contactName; contactAddress := contactAddress;
        description := description;
        controlledVocabularies := controlledVocabularies;
        runQualities := runQualities; setQualities := setQualities |}.

(** [fromJsonStatic] reads the clock twice: [t0] in the constructor of the
    fresh document and [now] while decoding. *)
Definition fromJsonStatic (t0 now : Z) (j : json) : result t :=
  fromJson now j (default t0).

End MzQCFile.

(** ** The file system, the schema cache and the error stream *)

(** The state outside the document objects: the files by path, the two
    function-local statics of [loadSchema], and the lines written to
    [std::cerr], oldest first. *)
Record World : Type := mkWorld {
  files : gmap string string;
  schemaLoaded : bool;
  cachedSchema : json;
  cerr : list string;
}.

Definition log (line : string) (w : World) : World :=
  {| files := files w; schemaLoaded := schemaLoaded w;
     cachedSchema := cachedSchema w; cerr := cerr w ++ [line] |}.

Definition cache_schema (js : json) (w : World) : World :=
  {| files := files w; schemaLoaded := true; cachedSchema := js; cerr := cerr w |}.

Definition write_file (path text : string) (w : World) : World :=
  {| files := <[ path := text ]> (files w); schemaLoaded := schemaLoaded w;
     cachedSchema := cachedSchema w; cerr := cerr w |}.

(** [e.what()].  For a [type_error] only the library's prefix with the id is
    given; no catch handler of this program sees one. *)
Definition what (e : exn) : string :=
  match e with
  | runtime_error msg => msg
  | type_error id => "[json.exception.type_error." +:+ Clock.decimal id +:+ "]"
  end.

Section file_boundary.

(** The library's parser ([stream >> json]), giving the message of its
    exception on malformed text; its printer [dump(indent)], which gives
    the text or, on a document with a string that is not valid UTF-8,
    throws type_error 316 ([None]); and whether an output stream opens on a
    path. *)
Variable parse : string → string + json.
Variable dump : nat → json → option string.
Variable writable : string → bool.

(** The schema is read at most once; a failed load is retried by the next
    call. *)
Definition loadSchema (schemaPath : string) (w : World) : result json * World :=
  if schemaLoaded w then (Ok (cachedSchema w), w)
  else
    match files w !! schemaPath with
    | None =>
        (Throw (runtime_error ("Error loading schema file: " +:+
                               "Failed to open schema file: " +:+ schemaPath)), w)
    | Some text =>
        match parse text with
        | inl msg =>
            (Throw (runtime_error ("Error loading schema file: " +:+ msg)), w)
        | inr js => (Ok js, cache_schema js w)
        end
    end.

(** The presence checks; the returned flag is the verdict and the reason
    of a rejection is the line appended to [cerr]. *)
Definition validateAgainstSchema (j : json) (schemaPath : string) (w : World)
  : bool * World :=
  match loadSchema schemaPath w with
  | (Throw e, w) => (false, log ("Schema validation error: " +:+ what e) w)
  | (Ok schemaJson, w) =>
      match Json.get j "mzQC" with
      | None =>
          (false, log "Schema validation error: missing root 'mzQC' object" w)
      | Some mzqc =>
          if negb (Json.contains mzqc "version")
             || negb (Json.contains mzqc "creationDate") then
            (false, log "Schema validation error: missing required properties in mzQC object" w)
          else if negb (Json.contains mzqc "runQualities")
                  && negb (Json.contains mzqc "setQualities") then
            (false, log "Schema validation error: either runQualities or setQualities must be present" w)
          else if negb (Json.contains mzqc "controlledVocabularies") then
            (false, log "Schema validation error: controlledVocabularies must be present" w)
          else (true, w)
      end
  end.

(** [MzQCFile::fromFile]; [t0] and [now] are the clock readings of
    [fromJsonStatic]. *)
Definition fromFile (t0 now : Z) (filepath schemaPath : string) (w : World)
  : result MzQCFile.t * World :=
  match files w !! filepath with
  | None => (Throw (runtime_error ("Could not open file: " +:+ filepath)), w)
  | Some text =>
      match parse text with
      | inl msg =>
          (Throw (runtime_error ("Error parsing JSON from file: " +:+ msg)), w)
      | inr j =>
          if negb (empty schemaPath) then
            let '(valid, w) := validateAgainstSchema j schemaPath w in
            if negb valid then
              (Throw (runtime_error "File does not conform to mzQC schema"), w)
            else (MzQCFile.fromJsonStatic t0 now j, w)
          else (MzQCFile.fromJsonStatic t0 now j, w)
      end
  end.

(** [MzQCFile::toFile]: the output stream is opened only after the
    validation has passed, and before the document is printed.  Opening
    creates or truncates the target, so when the printer throws, the target
    is left empty and the exception of the printer leaves the function. *)
Definition toFile (self : MzQCFile.t) (filepath schemaPath : string) (w : World)
  : result () * World :=
  let j := MzQCFile.toJson self in
  let '(valid, w) :=
    if negb (empty schemaPath) then validateAgainstSchema j schemaPath w
    else (true, w) in
  if negb valid then
    (Throw (runtime_error "Generated mzQC does not conform to schema"), w)
  else if negb (writable filepath) then
    (Throw (runtime_error ("Could not open file for writing: " +:+ filepath)), w)
  else
    let w := write_file filepath "" w in
    match dump 2 j with
    | None => (Throw (type_error 316), w)
    | Some text => (Ok (), write_file filepath text w)
    end.

End file_boundary.

(** ** CvTermDetails and CvTermCache *)
Module CvTermDetails.

Record t : Type := mk {
  accession : string;
  name : string;
  definition : string;
  relationships : list string;
  parentTerms : list string;
  valueType : option string;
  unit : option string;
}.

Definition default : t := mk "" "" "" [] [] None None.

Definition set_accession (v : string) (d : t) : t :=
  mk v (name d) (definition d) (relationships d) (parentTerms d) (valueType d) (unit d).
Definition set_name (v : string) (d : t) : t :=
  mk (accession d) v (definition d) (relationships d) (parentTerms d) (valueType d) (unit d).
Definition set_definition (v : string) (d : t) : t :=
  mk (accession d) (name d) v (relationships d) (parentTerms d) (valueType d) (unit d).
Definition push_parentTerm (v : string) (d : t) : t :=
  mk (accession d) (name d) (definition d) (relationships d) (parentTerms d ++ [v])
     (valueType d) (unit d).

End CvTermDetails.

Module CvTermCache.

Record t : Type := mk {
  currentOboFile : string;
  termCache : gmap string CvTermDetails.t;
}.

Definition default : t := mk "" ∅.

(** The lines that successive [std::getline] calls return: the text is cut
    at each newline, and no line is returned after the last newline when
    nothing follows it. *)
Fixpoint getlines (text : string) : list string :=
  match text with
  | EmptyString => []
  | String c rest =>
      if Ascii.eqb c "010" then "" :: getlines rest
      else match getlines rest with
           | [] => [String c ""]
           | line :: lines => String c line :: lines
           end
  end.

(** [line.find(p) == 0] *)
Fixpoint starts_with (p line : string) : bool :=
  match p, line with
  | EmptyString, _ => true
  | String a p', String b line' => Ascii.eqb a b && starts_with p' line'
  | String _ _, EmptyString => false
  end.

(** [line.substr(pos)], for [pos] within the line. *)
Fixpoint substr (pos : nat) (line : string) : string :=
  match pos, line with
  | O, _ => line
  | S pos', String _ line' => substr pos' line'
  | S _, EmptyString => ""
  end.

(** [line.empty() || line[0] == '!'] *)
Definition skipped (line : string) : bool :=
  match line with
  | EmptyString => true
  | String c _ => Ascii.eqb c "!"
  end.

(** The chain of prefix tests that fills the record in progress. *)
Definition processLine (currentTerm : CvTermDetails.t) (line : string)
  : CvTermDetails.t :=
  if starts_with "id:" line then
    CvTermDetails.set_accession (substr 3 line) currentTerm
  else if starts_with "name:" line then
    CvTermDetails.set_name (substr 5 line) currentTerm
  else if starts_with "def:" line then
    CvTermDetails.set_definition (substr 4 line) currentTerm
  else if starts_with "is_a:" line then
    CvTermDetails.push_parentTerm (substr 5 line) currentTerm
  else currentTerm.

(** The locals of [parseOboFile] together with the cache it writes. *)
Record scan : Type := mk_scan {
  currentTerm : CvTermDetails.t;
  inTermDef : bool;
  cache : gmap string CvTermDetails.t;
}.

(** [if (inTermDef && !currentTerm.accession.empty())
       termCache[currentTerm.accession] = currentTerm;] *)
Definition flush (st : scan) : gmap string CvTermDetails.t :=
  if inTermDef st && negb (empty (CvTermDetails.accession (currentTerm st)))
  then <[ CvTermDetails.accession (currentTerm st) := currentTerm st ]> (cache st)
  else cache st.

(** One iteration of the [while (std::getline(file, line))] loop. *)
Definition step (st : scan) (line : string) : scan :=
  if skipped line then st
  else if String.eqb line "[Term]" then
    {| currentTerm := CvTermDetails.default; inTermDef := true; cache := flush st |}
  else if negb (inTermDef st) then st
  else {| currentTerm := processLine (currentTerm st) line;
          inTermDef := inTermDef st; cache := cache st |}.

(** The loop and the flush after it, from the cache as it stands. *)
Definition scan_lines (lines : list string) (termCache : gmap string CvTermDetails.t)
  : gmap string CvTermDetails.t :=
  flush (fold_left step lines
           {| currentTerm := CvTermDetails.default; inTermDef := false;
              cache := termCache |}).

(** [parseOboFile] returns -1 when the file does not open, and the size of
    the cache otherwise. *)
Definition parseOboFile (filename : string) (fs : gmap string string) (self : t)
  : Z * t :=
  match fs !! filename with
  | None => (-1, self)%Z
  | Some text =>
      let termCache := scan_lines (getlines text) (termCache self) in
      (Z.of_nat (size termCache),
       {| currentOboFile := currentOboFile self; termCache := termCache |})
  end.

Definition loadFromOboFile (filename : string) (fs : gmap string string) (self : t)
  : Z * t :=
  parseOboFile filename fs
    {| currentOboFile := filename; termCache := termCache self |}.

End CvTermCache.

(** ** The example program ([example.cpp])

    The program reads a comma-separated file, turns every line after the
    header into a quality metric, and writes the encoded document; what it
    prints on the standard output, and what the runtime reports when it
    terminates the program, is left out. *)
Module Example.

(** How the program ends: [main] returns a code, or an exception leaves
    [main], which has no handler, and the runtime terminates the program. *)
Inductive ending : Type :=
  | Returned (code : Z)
  | Terminated (e : exn).

(** The state of the [std::stringstream] over a line: the text still to be
    read, or [None] once the stream has hit its end or failed. *)
Fixpoint getline_comma (s : string) : string * option string :=
  match s with
  | EmptyString => ("", None)
  | String c rest =>
      if Ascii.eqb c "," then ("", Some rest)
      else let '(field, ss) := getline_comma rest in (String c field, ss)
  end.

(** [std::getline(ss, field, ',')] into a fresh, empty [field]: the text up
    to the next comma; nothing is extracted from a stream that is at its
    end or no longer good, and the field stays empty. *)
Definition read_field (ss : option string) : string * option string :=
  match ss with
  | None => ("", None)
  | Some EmptyString => ("", None)
  | Some s => getline_comma s
  end.

(** The body of the loop over the lines: five fields are read, four of them
    make the payload. *)
Definition metric_of_line (line : string) : QualityMetric.t :=
  let ss := Some line in
  let '(rt, ss) := read_field ss in
  let '(peptide, ss) := read_field ss in
  let '(target, ss) := read_field ss in
  let '(mz, ss) := read_field ss in
  let '(deltaPPM, ss) := read_field ss in
  let value := Json.object_of [("RT", JString rt); ("peptide", JString peptide);
                               ("MZ", JString mz); ("deltaPPM", JString deltaPPM)] in
  QualityMetric.mk "QC:0000000" "Example Metric" "Example description" value "unit".

Definition csv_path : string :=
  "../CPTAC_CompRef_00_iTRAQ_01_2Feb12_Cougar_11-10-09_ids.csv".
Definition output_path : string := "output.mzqc".

(** The document built from the lines of the file; the first line is the
    header and is skipped. *)
Definition document_of (now : Z) (lines : list string) : MzQCFile.t :=
  let metrics := metric_of_line <$> tail lines in
  let inputFile :=
    InputFile.mk "file:///path/to/input.mzML" "input.mzML"
      (Some (CvParameter.mk "MS:1000584" "mzML file" "" "PSI-MS")) [] in
  let software :=
    AnalysisSoftware.mk "MS:1000799" "custom tool" "1.0.0" "http://example.org/tool" in
  let cv1 := ControlledVocabulary.make "PSI-MS"
               "https://github.com/HUPO-PSI/psi-ms-CV/blob/master/psi-ms.obo" "4.1.55" in
  let cv2 := ControlledVocabulary.make "QC"
               "https://github.com/HUPO-PSI/qcML-development/blob/master/cv/qc-cv.obo"
               "0.1.0" in
  let run_quality := RunQuality.mk "Example Run" [inputFile] [software] metrics in
  let mzqc_file := MzQCFile.make now "" "1.0.0" "Contact Name" "Contact Address"
                     "Description" [run_quality] [] in
  {| MzQCFile.creationDate := MzQCFile.creationDate mzqc_file;
     MzQCFile.version := MzQCFile.version mzqc_file;
     MzQCFile.contactName := MzQCFile.contactName mzqc_file;
     MzQCFile.contactAddress := MzQCFile.contactAddress mzqc_file;
     MzQCFile.description := MzQCFile.description mzqc_file;
     MzQCFile.controlledVocabularies := [cv1; cv2];
     MzQCFile.runQualities := MzQCFile.runQualities mzqc_file;
     MzQCFile.setQualities := MzQCFile.setQualities mzqc_file |}.

Section main.

Variable dump : nat → json → option string.
Variable writable : string → bool.

(** [main]: how it ends and the world it leaves.  The output stream is
    opened, which creates or truncates the output file, before the document
    is printed; the exception of the printer is not caught. *)
Definition main (now : Z) (w : World) : ending * World :=
  match files w !! csv_path with
  | None => (Returned 1, log "Failed to open CSV file." w)
  | Some text =>
      let mzqc_file := document_of now (CvTermCache.getlines text) in
      if negb (writable output_path) then
        (Returned 1, log "Failed to open output file." w)
      else
        let w := write_file output_path "" w in
        match dump 4 (MzQCFile.toJson mzqc_file) with
        | None => (Terminated (type_error 316), w)
        | Some text => (Returned 0, write_file output_path text w)
        end
  end.

End main.

End Example.

(** * Sample values and the vocabulary of the statements *)

(** A metric payload of mixed shapes, used by the examples below. *)
Definition sample_payload : json :=
  Json.object_of
    [("RT", JString "12.3");
     ("count", JInteger (-3));
     ("total", JUnsigned 7);
     ("ratio", JFloat (S754_finite false 3 (-1)));
     ("flags", JArray [JBoolean true; JNull; JArray [JInteger 1; JFloat (S754_zero false)]]);
     ("nested", Json.object_of [("deep", Json.object_of [("x", JArray [])])])].

Definition sample_document : MzQCFile.t :=
  {| MzQCFile.creationDate := "2024-01-01T00:00:00Z";
     MzQCFile.version := "1.0.0";
     MzQCFile.contactName := "Contact Name";
     MzQCFile.contactAddress := "Contact Address";
     MzQCFile.description := "Description";
     MzQCFile.controlledVocabularies :=
       [ControlledVocabulary.make "QC" "https://example.org/qc-cv.obo" "0.1.0"];
     MzQCFile.runQualities :=
       [RunQuality.mk "Run A"
          [InputFile.mk "file:///path/to/input.mzML" "input.mzML"
             (Some (CvParameter.mk "MS:1000584" "mzML file" "" "PSI-MS"))
             [CvParameter.mk "MS:1000747" "completion time" "now" "PSI-MS"]]
          [AnalysisSoftware.mk "MS:1000799" "custom tool" "1.0.0" "http://example.org/tool"]
          [QualityMetric.mk "QC:0000000" "Example" "Example description"
             sample_payload "unit"]];
     MzQCFile.setQualities :=
       [SetQuality.mk "Set 1" ["Run A"]
          [QualityMetric.mk "QC:0000001" "Count" "" (JInteger 42) ""]] |}.

(** A document with nothing but a version and a creation date. *)
Definition bare_document : MzQCFile.t :=
  {| MzQCFile.creationDate := "2024-01-01T00:00:00Z"; MzQCFile.version := "1.0.0";
     MzQCFile.contactName := ""; MzQCFile.contactAddress := "";
     MzQCFile.description := ""; MzQCFile.controlledVocabularies := [];
     MzQCFile.runQualities := []; MzQCFile.setQualities := [] |}.

(** The wrapped form of an inner wire object. *)
Definition wrap (j : json) : json := Json.object_of [("mzQC", j)].

(** An inner object that itself has a key [mzQC]. *)
Definition inner_with_root_key : json :=
  Json.object_of
    [("version", JString "1.0.0");
     ("creationDate", JString "2024-01-01T00:00:00Z");
     ("mzQC", Json.object_of [("version", JString "2.0.0");
                              ("creationDate", JString "2024-01-01T00:00:00Z")])].

(** A document that already holds a controlled vocabulary. *)
Definition prior_document : MzQCFile.t :=
  {| MzQCFile.creationDate := "2020-02-02T02:02:02Z"; MzQCFile.version := "0.9";
     MzQCFile.contactName := "Old"; MzQCFile.contactAddress := "";
     MzQCFile.description := ""; 
     MzQCFile.controlledVocabularies := [ControlledVocabulary.make "QC" "uri" "1"];
     MzQCFile.runQualities := []; MzQCFile.setQualities := [] |}.

(** The string read at a key: the stored string, or the default. *)
Definition string_at (j : json) (key dflt : string) : string :=
  match Json.get j key with
  | Some (JString s) => s
  | _ => dflt
  end.

Definition reason_root : string :=
  "Schema validation error: missing root 'mzQC' object".
Definition reason_required : string :=
  "Schema validation error: missing required properties in mzQC object".
Definition reason_qualities : string :=
  "Schema validation error: either runQualities or setQualities must be present".
Definition reason_vocabularies : string :=
  "Schema validation error: controlledVocabularies must be present".

(** The reason of a verdict: the last line on the error stream. *)
Definition reason (r : bool * World) : option string := last (cerr r.2).

(** A parser that accepts every text as the empty object, a printer that
    prints the empty text, and a world whose only file is a schema. *)
Definition parse_any : string → string + json := λ _, inr (JObject ∅).
Definition dump_blank : nat → json → option string := λ _ _, Some "".
Definition world0 : World :=
  {| files := {[ "mzqc_schema.json" := "{}" ]}; schemaLoaded := false;
     cachedSchema := JNull; cerr := [] |}.

(** A wire document with one key of its root object removed. *)
Definition without (key : string) (j : json) : json :=
  match MzQCFile.root j with
  | JObject m => wrap (JObject (delete key m))
  | _ => j
  end.

(** The shape of an ontology text: lines before the first marker, then
    blocks, each a marker line followed by the lines up to the next marker. *)
Definition marker : string := "[Term]".

Definition lines_of (pre : list string) (blocks : list (list string)) : list string :=
  pre ++ concat (cons marker <$> blocks).

(** The record that the lines of one block describe. *)
Definition block_term (b : list string) : CvTermDetails.t :=
  fold_left CvTermCache.processLine b CvTermDetails.default.

(** The accession of a block: what follows [id:] on its last such line, and
    the empty string when it has none. *)
Definition block_accession (b : list string) : string :=
  match last (filter (λ l, CvTermCache.starts_with "id:" l = true) b) with
  | Some l => CvTermCache.substr 3 l
  | None => ""
  end.

(** A finished record enters the cache under its accession unless that is
    empty. *)
Definition insert_term (m : gmap string CvTermDetails.t) (d : CvTermDetails.t)
  : gmap string CvTermDetails.t :=
  if empty (CvTermDetails.accession d) then m
  else <[ CvTermDetails.accession d := d ]> m.

(** A text from its lines, each ended by a newline. *)
Definition unlines (lines : list string) : string :=
  foldr (λ l acc, l +:+ String "010" acc) "" lines.

Definition source_A : string :=
  unlines ["format-version: 1.2"; ""; "[Term]"; "id: MS:1000001"; "name: sample number"].
Definition source_B : string :=
  unlines ["[Term]"; "id: MS:1000002"; "name: first"; "";
           "[Term]"; ""; "";
           "[Term]"; "id: MS:1000002"; "name: second"; "is_a: MS:1000001"].
Definition ontology_files : gmap string string :=
  {[ "a.obo" := source_A; "b.obo" := source_B ]}.

Definition source_dup : string :=
  unlines ["[Term]"; "id: MS:1000002"; "name: first";
           "[Term]"; "id: MS:1000002"; "name: second"].

Definition source_C : string :=
  unlines ["! an ontology"; "[Term]"; "id: MS:1000001"; "name: one";
           "[Term]"; ""; "";
           "[Term]"; "id: MS:1000002"].

(** What the empty wire object decodes to: only the creation date is set. *)
Definition blank_document (stamp : string) : MzQCFile.t :=
  {| MzQCFile.creationDate := stamp; MzQCFile.version := "";
     MzQCFile.contactName := ""; MzQCFile.contactAddress := "";
     MzQCFile.description := ""; MzQCFile.controlledVocabularies := [];
     MzQCFile.runQualities := []; MzQCFile.setQualities := [] |}.

(** ** What a wire value decodes to in a freshly constructed object

    The decoders written out as functions of the wire value alone: a string
    whose key is missing is empty, a list whose key is missing or holds no
    array is empty, a missing file format is the null pointer and a missing
    payload the null value. *)
Module Fresh.

Definition array_at {A} (j : json) (key : string) (f : json → A) : list A :=
  match Json.get j key with
  | Some (JArray vs) => f <$> vs
  | _ => []
  end.

Definition string_of (j : json) : string :=
  match j with JString s => s | _ => "" end.

Definition vocabulary (j : json) : ControlledVocabulary.t :=
  {| ControlledVocabulary.id := string_at j "id" "";
     ControlledVocabulary.name := string_at j "name" "";
     ControlledVocabulary.uri := string_at j "uri" "";
     ControlledVocabulary.version := string_at j "version" "" |}.

Definition parameter (j : json) : CvParameter.t :=
  {| CvParameter.accession := string_at j "accession" "";
     CvParameter.name := string_at j "name" "";
     CvParameter.value := string_at j "value" "";
     CvParameter.cvRef := string_at j "cvRef" "" |}.

Definition software (j : json) : AnalysisSoftware.t :=
  {| AnalysisSoftware.accession := string_at j "accession" "";
     AnalysisSoftware.name := string_at j "name" "";
     AnalysisSoftware.version := string_at j "version" "";
     AnalysisSoftware.uri := string_at j "uri" "" |}.

Definition input_file (j : json) : InputFile.t :=
  {| InputFile.location := string_at j "location" "";
     InputFile.name := string_at j "name" "";
     InputFile.fileFormat := parameter <$> Json.get j "fileFormat";
     InputFile.fileProperties := array_at j "fileProperties" parameter |}.

Definition metric (j : json) : QualityMetric.t :=
  {| QualityMetric.accession := string_at j "accession" "";
     QualityMetric.name := string_at j "name" "";
     QualityMetric.description := string_at j "description" "";
     QualityMetric.value := default JNull (Json.get j "value");
     QualityMetric.unit := string_at j "unit" "" |}.

Definition run_quality (j : json) : RunQuality.t :=
  {| RunQuality.label := string_at j "label" "";
     RunQuality.inputFiles := array_at j "inputFiles" input_file;
     RunQuality.analysisSoftware := array_at j "analysisSoftware" software;
     RunQuality.metrics := array_at j "metrics" metric |}.

Definition set_quality (j : json) : SetQuality.t :=
  {| SetQuality.label := string_at j "label" "";
     SetQuality.setRefs := array_at j "setRefs" string_of;
     SetQuality.metrics := array_at j "metrics" metric |}.

End Fresh.

(** A wire document whose run quality has an input file without file
    format and properties and a metric without payload, and a document that
    holds a run quality with both. *)
Definition sparse_wire : json :=
  wrap (Json.object_of
    [("runQualities",
      JArray [Json.object_of
        [("label", JString "Run B");
         ("inputFiles", JArray [Json.object_of [("name", JString "b.mzML")]]);
         ("metrics", JArray [Json.object_of [("accession", JString "QC:1")]])]])]).

Definition full_document : MzQCFile.t :=
  {| MzQCFile.creationDate := "2020-02-02T02:02:02Z"; MzQCFile.version := "0.9";
     MzQCFile.contactName := "Old"; MzQCFile.contactAddress := "";
     MzQCFile.description := "";
     MzQCFile.controlledVocabularies := [ControlledVocabulary.make "QC" "uri" "1"];
     MzQCFile.runQualities :=
       [RunQuality.mk "Run A"
          [InputFile.mk "file:///a.mzML" "a.mzML"
             (Some (CvParameter.mk "MS:1000584" "mzML file" "" "PSI-MS"))
             [CvParameter.mk "MS:1000747" "completion time" "now" "PSI-MS"]]
          [AnalysisSoftware.mk "MS:1000799" "custom tool" "1.0.0" ""]
          [QualityMetric.mk "QC:0" "Old" "" (JInteger 42) "unit"]];
     MzQCFile.setQualities := [] |}.

(** What the decoder leaves in [full_document] on [sparse_wire] at clock
    reading 0. *)
Definition sparse_decoded : MzQCFile.t :=
  {| MzQCFile.creationDate := "1970-01-01T00:00:00Z"; MzQCFile.version := "";
     MzQCFile.contactName := ""; MzQCFile.contactAddress := "";
     MzQCFile.description := "";
     MzQCFile.controlledVocabularies := [ControlledVocabulary.make "QC" "uri" "1"];
     MzQCFile.runQualities :=
       [RunQuality.mk "Run B" [InputFile.mk "" "b.mzML" None []] []
          [QualityMetric.mk "QC:1" "" "" JNull ""]];
     MzQCFile.setQualities := [] |}.

(** ** The clock reading that a timestamp denotes

    The Gregorian calendar written down independently of [gmtime]: leap
    years, the lengths of the months, and the seconds from the epoch to a
    date and time of day, counted year by year and month by month. *)
Module Calendar.
#[local] Open Scope Z_scope.

Definition is_leap (y : Z) : bool :=
  (y mod 4 =? 0) && (negb (y mod 100 =? 0) || (y mod 400 =? 0)).

Definition month_length (leap : bool) (m : Z) : Z :=
  if m =? 2 then (if leap then 29 else 28)
  else if (m =? 4) || (m =? 6) || (m =? 9) || (m =? 11) then 30
  else 31.

Definition days_in_month (y : Z) : Z → Z := month_length (is_leap y).

Definition days_in_year (y : Z) : Z := if is_leap y then 366 else 365.

Definition total (l : list Z) : Z := foldr Z.add 0 l.

(** The days of the years 1970, ..., [y - 1]. *)
Definition days_before_year (y : Z) : Z :=
  total (days_in_year <$> seqZ 1970 (y - 1970)).

(** The days of the months 1, ..., [m - 1] of the year [y]. *)
Definition days_before_month (y m : Z) : Z :=
  total (days_in_month y <$> seqZ 1 (m - 1)).

(** A date of the calendar, not before 1970, and a time of day. *)
Definition valid (y m d h n s : Z) : bool :=
  (1970 <=? y) && Clock.between 1 12 m && Clock.between 1 (days_in_month y m) d
  && Clock.between 0 23 h && Clock.between 0 59 n && Clock.between 0 59 s.

Definition seconds_since_epoch (y m d h n s : Z) : Z :=
  (((days_before_year y + days_before_month y m + (d - 1)) * 24 + h) * 60 + n) * 60 + s.

Definition num4 (a b c d : ascii) : Z := 100 * Clock.num2 a b + Clock.num2 c d.

(** The clock reading denoted by a timestamp [YYYY-MM-DDThh:mm:ssZ]; none
    when the text has not that form or names no date of the calendar. *)
Definition denoted_time (stamp : string) : option Z :=
  if Clock.is_iso8601_utc stamp then
    match String.list_ascii_of_string stamp with
    | [y1; y2; y3; y4; _; m1; m2; _; d1; d2; _; h1; h2; _; n1; n2; _; s1; s2; _] =>
        let y := num4 y1 y2 y3 y4 in
        let m := Clock.num2 m1 m2 in
        let d := Clock.num2 d1 d2 in
        let h := Clock.num2 h1 h2 in
        let n := Clock.num2 n1 n2 in
        let s := Clock.num2 s1 s2 in
        if valid y m d h n s then Some (seconds_since_epoch y m d h n s) else None
    | _ => None
    end
  else None.

End Calendar.

(** ** The vocabulary of the further properties *)

Definition is_string (j : json) : bool :=
  match j with JString _ => true | _ => false end.

(** The keys that the document decoder reads. *)
Definition string_keys : list string :=
  ["creationDate"; "version"; "contactName"; "contactAddress"; "description"].

Definition list_keys : list string :=
  ["controlledVocabularies"; "runQualities"; "setQualities"].

Definition known_keys : list string := string_keys ++ list_keys.

(** The presence checks as a function of the wire document alone. *)
Definition complete (j : json) : bool :=
  match Json.get j "mzQC" with
  | None => false
  | Some mzqc =>
      Json.contains mzqc "version" && Json.contains mzqc "creationDate"
      && (Json.contains mzqc "runQualities" || Json.contains mzqc "setQualities")
      && Json.contains mzqc "controlledVocabularies"
  end.

Definition schema_error_in : string := "File does not conform to mzQC schema".

(** The pairs of the root object of an encoded document, in the order of
    the assignments. *)
Definition optional (c : bool) (key : string) (v : json) : list (string * json) :=
  if c then [(key, v)] else [].

Definition root_pairs (d : MzQCFile.t) : list (string * json) :=
  [("version", JString (MzQCFile.version d));
   ("creationDate", JString (MzQCFile.creationDate d))]
  ++ optional (negb (empty (MzQCFile.contactName d)))
       "contactName" (JString (MzQCFile.contactName d))
  ++ optional (negb (empty (MzQCFile.contactAddress d)))
       "contactAddress" (JString (MzQCFile.contactAddress d))
  ++ optional (negb (empty (MzQCFile.description d)))
       "description" (JString (MzQCFile.description d))
  ++ optional (negb (vempty (MzQCFile.controlledVocabularies d)))
       "controlledVocabularies"
       (JArray (ControlledVocabulary.toJson <$> MzQCFile.controlledVocabularies d))
  ++ optional (negb (vempty (MzQCFile.runQualities d)))
       "runQualities" (JArray (RunQuality.toJson <$> MzQCFile.runQualities d))
  ++ optional (negb (vempty (MzQCFile.setQualities d)))
       "setQualities" (JArray (SetQuality.toJson <$> MzQCFile.setQualities d)).

(** What follows the prefix on the last line of a block that starts with
    it, and the empty string when no line does. *)
Definition last_after (p : string) (b : list string) : string :=
  match last (filter (λ l, CvTermCache.starts_with p l = true) b) with
  | Some l => CvTermCache.substr (String.length p) l
  | None => ""
  end.

(** Every record of a cache sits under its own accession, which is not
    empty. *)
Definition keyed (m : gmap string CvTermDetails.t) : Prop :=
  ∀ k d, m !! k = Some d → CvTermDetails.accession d = k ∧ k ≠ "".

(** The three fields that no line of a source fills. *)
Definition unfilled (d : CvTermDetails.t) : Prop :=
  CvTermDetails.relationships d = [] ∧ CvTermDetails.valueType d = None ∧
  CvTermDetails.unit d = None.

(** A field of a comma-separated line holds no comma. *)
Fixpoint comma_free (s : string) : bool :=
  match s with
  | EmptyString => true
  | String c rest => negb (Ascii.eqb c ",") && comma_free rest
  end.

(** The stream over the fields still to be read. *)
Definition stream_of (fs : list string) : option string :=
  match fs with
  | [] => None
  | _ :: _ => Some (String.concat "," fs)
  end.

(** Sample values of the further properties. *)
Definition mistyped_version : gmap string json := {[ "version" := JInteger 1 ]}.
Definition parse_sample : string → string + json :=
  λ _, inr (MzQCFile.toJson sample_document).
Definition world_with_document : World :=
  {| files := {[ "doc.mzqc" := "{}" ]}; schemaLoaded := false;
     cachedSchema := JNull; cerr := [] |}.
Definition source_plain : string :=
  unlines ["format-version: 1.2"; "id: MS:1000001"; "[Typedef]"; "id: part_of"].
Definition source_C_bare : string :=
  unlines ["[Term]"; "id: MS:1000001"; "name: one"; "[Term]"; "[Term]"; "id: MS:1000002"].
Definition sample_sources : gmap string string :=
  {[ "c.obo" := source_C; "bare.obo" := source_C_bare; "plain.obo" := source_plain ]}.
Definition sample_row : list string :=
  ["12.3"; "PEPTIDE"; "1"; "500.2"; "0.4"; "extra"].

(** * Properties of the codec *)

Lemma mapM_Ok_fmap {A B} (f : B → result A) (g : A → B) (l : list A) :
  (∀ x, f (g x) = Ok x) → mapM f (g <$> l) = Ok l.
Proof.
  intros Hfg. induction l as [|x l IH]; [done|].
  cbn [fmap list_fmap mapM]. cbn [fmap list_fmap] in IH.
  by rewrite Hfg, IH.
Qed.

(** Decoding, element by element into fresh receivers, an array of encoded
    elements. *)
Lemma decode_all {A} (fromJson : json → A → result A) (toJson : A → json)
    (dflt : A) (l : list A) :
  (∀ x, fromJson (toJson x) dflt = Ok x) →
  mapM (λ v, fromJson v dflt) (toJson <$> l) = Ok l.
Proof. intros H. by apply (mapM_Ok_fmap (λ v, fromJson v dflt)). Qed.

Lemma empty_true (s : string) : empty s = true ↔ s = "".
Proof. by destruct s. Qed.

Lemma vempty_true {A} (l : list A) : vempty l = true ↔ l = [].
Proof. by destruct l. Qed.

(** ** The keys of each encoded entity *)

Section wire_fields.
Import Json.

Lemma ControlledVocabulary_fields (c : ControlledVocabulary.t) :
  let j := ControlledVocabulary.toJson c in
  get j "id" = Some (JString (ControlledVocabulary.id c)) ∧
  get j "name" = Some (JString (ControlledVocabulary.name c)) ∧
  get j "uri" = Some (JString (ControlledVocabulary.uri c)) ∧
  get j "version" = Some (JString (ControlledVocabulary.version c)).
Proof. by destruct c. Qed.

Lemma CvParameter_fields (p : CvParameter.t) :
  let j := CvParameter.toJson p in
  get j "accession" = Some (JString (CvParameter.accession p)) ∧
  get j "name" = Some (JString (CvParameter.name p)) ∧
  get j "value" = (if empty (CvParameter.value p) then None
                   else Some (JString (CvParameter.value p))) ∧
  get j "cvRef" = (if empty (CvParameter.cvRef p) then None
                   else Some (JString (CvParameter.cvRef p))).
Proof. destruct p as [a n v r]. by destruct v, r. Qed.

Lemma AnalysisSoftware_fields (s : AnalysisSoftware.t) :
  let j := AnalysisSoftware.toJson s in
  get j "accession" = Some (JString (AnalysisSoftware.accession s)) ∧
  get j "name" = Some (JString (AnalysisSoftware.name s)) ∧
  get j "version" = Some (JString (AnalysisSoftware.version s)) ∧
  get j "uri" = (if empty (AnalysisSoftware.uri s) then None
                 else Some (JString (AnalysisSoftware.uri s))).
Proof. destruct s as [a n v u]. by destruct u. Qed.

Lemma InputFile_fields (f : InputFile.t) :
  let j := InputFile.toJson f in
  get j "location" = Some (JString (InputFile.location f)) ∧
  get j "name" = Some (JString (InputFile.name f)) ∧
  get j "fileFormat" = CvParameter.toJson <$> InputFile.fileFormat f ∧
  get j "fileProperties" =
    (if vempty (InputFile.fileProperties f) then None
     else Some (JArray (CvParameter.toJson <$> InputFile.fileProperties f))).
Proof. destruct f as [l n ff ps]. by destruct ff, ps. Qed.

Lemma QualityMetric_fields (m : QualityMetric.t) :
  let j := QualityMetric.toJson m in
  get j "accession" = Some (JString (QualityMetric.accession m)) ∧
  get j "name" = Some (JString (QualityMetric.name m)) ∧
  get j "description" = (if empty (QualityMetric.description m) then None
                         else Some (JString (QualityMetric.description m))) ∧
  get j "value" = (if is_null (QualityMetric.value m) then None
                   else Some (QualityMetric.value m)) ∧
  get j "unit" = (if empty (QualityMetric.unit m) then None
                  else Some (JString (QualityMetric.unit m))).
Proof. destruct m as [a n d v u]. by destruct d, v, u. Qed.

Lemma RunQuality_fields (r : RunQuality.t) :
  let j := RunQuality.toJson r in
  get j "label" = Some (JString (RunQuality.label r)) ∧
  get j "inputFiles" =
    Some (JArray (InputFile.toJson <$> RunQuality.inputFiles r)) ∧
  get j "analysisSoftware" =
    Some (JArray (AnalysisSoftware.toJson <$> RunQuality.analysisSoftware r)) ∧
  get j "metrics" =
    Some (JArray (QualityMetric.toJson <$> RunQuality.metrics r)).
Proof. by destruct r. Qed.

Lemma SetQuality_fields (s : SetQuality.t) :
  let j := SetQuality.toJson s in
  get j "label" = Some (JString (SetQuality.label s)) ∧
  get j "setRefs" = Some (JArray (JString <$> SetQuality.setRefs s)) ∧
  get j "metrics" =
    Some (JArray (QualityMetric.toJson <$> SetQuality.metrics s)).
Proof. by destruct s. Qed.

(** The document is the single key [mzQC] over the inner object. *)
Lemma MzQCFile_root (d : MzQCFile.t) :
  MzQCFile.toJson d = JObject {[ "mzQC" := MzQCFile.root (MzQCFile.toJson d) ]} ∧
  is_object (MzQCFile.root (MzQCFile.toJson d)) = true.
Proof.
  destruct d as [cd v cn ca ds cvs rqs sqs].
  destruct cn, ca, ds, cvs, rqs, sqs; split; reflexivity.
Qed.

Lemma MzQCFile_fields (d : MzQCFile.t) :
  let j := MzQCFile.root (MzQCFile.toJson d) in
  get j "version" = Some (JString (MzQCFile.version d)) ∧
  get j "creationDate" = Some (JString (MzQCFile.creationDate d)) ∧
  get j "contactName" = (if empty (MzQCFile.contactName d) then None
                         else Some (JString (MzQCFile.contactName d))) ∧
  get j "contactAddress" = (if empty (MzQCFile.contactAddress d) then None
                            else Some (JString (MzQCFile.contactAddress d))) ∧
  get j "description" = (if empty (MzQCFile.description d) then None
                         else Some (JString (MzQCFile.description d))) ∧
  get j "controlledVocabularies" =
    (if vempty (MzQCFile.controlledVocabularies d) then None
     else Some (JArray (ControlledVocabulary.toJson <$>
                          MzQCFile.controlledVocabularies d))) ∧
  get j "runQualities" =
    (if vempty (MzQCFile.runQualities d) then None
     else Some (JArray (RunQuality.toJson <$> MzQCFile.runQualities d))) ∧
  get j "setQualities" =
    (if vempty (MzQCFile.setQualities d) then None
     else Some (JArray (SetQuality.toJson <$> MzQCFile.setQualities d))).
Proof.
  destruct d as [cd v cn ca ds cvs rqs sqs].
  destruct cn, ca, ds, cvs, rqs, sqs; repeat split; reflexivity.
Qed.

End wire_fields.

(** ** Decoding what was encoded *)

Section round_trip.
Import Json.

Lemma value_of_get (j : json) (key dflt : string) :
  is_object j = true →
  value j key dflt = match get j key with
                     | Some v => get_string v
                     | None => Ok dflt
                     end.
Proof. by destruct j. Qed.

Ltac bind_step := cbn [mbind result_bind mret result_ret fmap result_fmap
                       option_fmap option_map get_string].

Lemma ControlledVocabulary_round_trip (c self : ControlledVocabulary.t) :
  ControlledVocabulary.fromJson (ControlledVocabulary.toJson c) self = Ok c.
Proof. by destruct c. Qed.

Lemma CvParameter_round_trip (p self : CvParameter.t) :
  CvParameter.fromJson (CvParameter.toJson p) self = Ok p.
Proof. destruct p as [a n v r]. by destruct v, r. Qed.

Lemma AnalysisSoftware_round_trip (s self : AnalysisSoftware.t) :
  AnalysisSoftware.fromJson (AnalysisSoftware.toJson s) self = Ok s.
Proof. destruct s as [a n v u]. by destruct u. Qed.

Lemma InputFile_is_object (f : InputFile.t) :
  is_object (InputFile.toJson f) = true.
Proof. destruct f as [l n ff ps]. by destruct ff, ps. Qed.

Lemma InputFile_round_trip (f : InputFile.t) :
  InputFile.fromJson (InputFile.toJson f) InputFile.default = Ok f.
Proof.
  destruct (InputFile_fields f) as (Hl & Hn & Hff & Hps).
  unfold InputFile.fromJson.
  rewrite !value_of_get by apply InputFile_is_object.
  rewrite Hl, Hn, Hff, Hps. clear. destruct f as [l n ff ps].
  cbn [InputFile.location InputFile.name InputFile.fileFormat
       InputFile.fileProperties]; bind_step.
  destruct ff as [ff|]; bind_step;
    [rewrite CvParameter_round_trip; bind_step|];
    (destruct ps as [|p ps]; [done|]);
    cbn [vempty];
    by rewrite (decode_all CvParameter.fromJson CvParameter.toJson)
      by (intros; apply CvParameter_round_trip).
Qed.

Lemma QualityMetric_round_trip (m : QualityMetric.t) :
  QualityMetric.fromJson (QualityMetric.toJson m) QualityMetric.default = Ok m.
Proof. destruct m as [a n d v u]. by destruct d, v, u. Qed.

Lemma RunQuality_round_trip (r self : RunQuality.t) :
  RunQuality.fromJson (RunQuality.toJson r) self = Ok r.
Proof.
  destruct (RunQuality_fields r) as (Hl & Hf & Hs & Hm).
  unfold RunQuality.fromJson.
  rewrite value_of_get by by destruct r.
  rewrite Hl, Hf, Hs, Hm. bind_step.
  rewrite (decode_all InputFile.fromJson InputFile.toJson)
    by apply InputFile_round_trip; bind_step.
  rewrite (decode_all AnalysisSoftware.fromJson AnalysisSoftware.toJson)
    by (intros; apply AnalysisSoftware_round_trip); bind_step.
  rewrite (decode_all QualityMetric.fromJson QualityMetric.toJson)
    by apply QualityMetric_round_trip; bind_step.
  by destruct r.
Qed.

Lemma SetQuality_round_trip (s self : SetQuality.t) :
  SetQuality.fromJson (SetQuality.toJson s) self = Ok s.
Proof.
  destruct (SetQuality_fields s) as (Hl & Hr & Hm).
  unfold SetQuality.fromJson.
  rewrite value_of_get by by destruct s.
  rewrite Hl, Hr, Hm. bind_step.
  rewrite (mapM_Ok_fmap get_string JString) by done; bind_step.
  rewrite (decode_all QualityMetric.fromJson QualityMetric.toJson)
    by apply QualityMetric_round_trip; bind_step.
  by destruct s.
Qed.

(** Decoding an encoded document into a document whose three lists are
    empty gives the document back, at any clock reading. *)
Lemma MzQCFile_round_trip (now : Z) (d self : MzQCFile.t) :
  MzQCFile.controlledVocabularies self = [] →
  MzQCFile.runQualities self = [] →
  MzQCFile.setQualities self = [] →
  MzQCFile.fromJson now (MzQCFile.toJson d) self = Ok d.
Proof.
  intros Hcv Hrq Hsq.
  destruct (MzQCFile_fields d) as (Hv & Hcd & Hcn & Hca & Hds & Hcvs & Hrqs & Hsqs).
  destruct (MzQCFile_root d) as [_ Hobj].
  unfold MzQCFile.fromJson. cbv zeta in *.
  rewrite !value_of_get by done.
  rewrite Hv, Hcd, Hcn, Hca, Hds, Hcvs, Hrqs, Hsqs, Hcv, Hrq, Hsq.
  clear. destruct d as [cd v cn ca ds cvs rqs sqs]; bind_step.
  cbn [MzQCFile.contactName MzQCFile.contactAddress MzQCFile.description
       MzQCFile.controlledVocabularies MzQCFile.runQualities
       MzQCFile.setQualities].
  destruct cn, ca, ds; bind_step;
    (destruct cvs as [|c cvs]; cbn [vempty];
      [|rewrite (decode_all ControlledVocabulary.fromJson ControlledVocabulary.toJson)
         by (intros; apply ControlledVocabulary_round_trip)];
      bind_step);
    (destruct rqs as [|r rqs]; cbn [vempty];
      [|rewrite (decode_all RunQuality.fromJson RunQuality.toJson)
         by (intros; apply RunQuality_round_trip)];
      bind_step);
    (destruct sqs as [|s sqs]; cbn [vempty];
      [|rewrite (decode_all SetQuality.fromJson SetQuality.toJson)
         by (intros; apply SetQuality_round_trip)];
      bind_step);
    reflexivity.
Qed.

End round_trip.

(** ** Claims on the codec *)

Example sample_document_round_trip :
  MzQCFile.fromJsonStatic 0 1 (MzQCFile.toJson sample_document) = Ok sample_document.
Proof. vm_compute. reflexivity. Qed.

(** C1.  Decoding an encoded document into a fresh object gives back the
    document, whatever its contents: every string, every list with its
    nested lists, and every metric payload, which is stored and read back as
    the JSON value it is, so that the kind of a number (integer, unsigned,
    floating) and the nesting are kept.  The equation holds for every
    document, so in particular for those whose optional fields, creation
    date and lists are non-empty; [t0] and [now] are the clock readings of
    the fresh object's constructor and of the decoder. *)
Theorem C1_decode_encode (t0 now : Z) (d : MzQCFile.t) :
  MzQCFile.fromJsonStatic t0 now (MzQCFile.toJson d) = Ok d.
Proof. by apply MzQCFile_round_trip. Qed.

(** C2, as the claim states it, fails: a controlled vocabulary, a run
    quality and a set quality with empty fields are encoded with their keys
    present and empty. *)
Lemma C2_required_fields_emitted_empty :
  Json.get (ControlledVocabulary.toJson ControlledVocabulary.default) "id"
    = Some (JString "") ∧
  Json.get (RunQuality.toJson RunQuality.default) "inputFiles" = Some (JArray []) ∧
  Json.get (SetQuality.toJson SetQuality.default) "setRefs" = Some (JArray []).
Proof. repeat split; vm_compute; reflexivity. Qed.

(** C2, amended.  The conditional emission applies to the optional fields
    only: [value] and [cvRef] of a CvParameter, [uri] of an
    AnalysisSoftware, [fileFormat] and [fileProperties] of an InputFile,
    [description], [value] and [unit] of a QualityMetric, and the contact
    name, contact address, description and the three lists of the document
    are present in the wire object exactly when they are non-empty.  All
    other fields are always present, empty or not. *)
Theorem C2_conditional_emission
    (c : ControlledVocabulary.t) (p : CvParameter.t) (s : AnalysisSoftware.t)
    (f : InputFile.t) (m : QualityMetric.t) (r : RunQuality.t)
    (q : SetQuality.t) (d : MzQCFile.t) :
  let has := Json.contains in
  (has (ControlledVocabulary.toJson c) "id" = true ∧
   has (ControlledVocabulary.toJson c) "name" = true ∧
   has (ControlledVocabulary.toJson c) "uri" = true ∧
   has (ControlledVocabulary.toJson c) "version" = true) ∧
  (has (CvParameter.toJson p) "accession" = true ∧
   has (CvParameter.toJson p) "name" = true ∧
   has (CvParameter.toJson p) "value" = negb (empty (CvParameter.value p)) ∧
   has (CvParameter.toJson p) "cvRef" = negb (empty (CvParameter.cvRef p))) ∧
  (has (AnalysisSoftware.toJson s) "accession" = true ∧
   has (AnalysisSoftware.toJson s) "name" = true ∧
   has (AnalysisSoftware.toJson s) "version" = true ∧
   has (AnalysisSoftware.toJson s) "uri" = negb (empty (AnalysisSoftware.uri s))) ∧
  (has (InputFile.toJson f) "location" = true ∧
   has (InputFile.toJson f) "name" = true ∧
   has (InputFile.toJson f) "fileFormat" = bool_decide (is_Some (InputFile.fileFormat f)) ∧
   has (InputFile.toJson f) "fileProperties" = negb (vempty (InputFile.fileProperties f))) ∧
  (has (QualityMetric.toJson m) "accession" = true ∧
   has (QualityMetric.toJson m) "name" = true ∧
   has (QualityMetric.toJson m) "description" = negb (empty (QualityMetric.description m)) ∧
   has (QualityMetric.toJson m) "value" = negb (Json.is_null (QualityMetric.value m)) ∧
   has (QualityMetric.toJson m) "unit" = negb (empty (QualityMetric.unit m))) ∧
  (has (RunQuality.toJson r) "label" = true ∧
   has (RunQuality.toJson r) "inputFiles" = true ∧
   has (RunQuality.toJson r) "analysisSoftware" = true ∧
   has (RunQuality.toJson r) "metrics" = true) ∧
  (has (SetQuality.toJson q) "label" = true ∧
   has (SetQuality.toJson q) "setRefs" = true ∧
   has (SetQuality.toJson q) "metrics" = true) ∧
  (let inner := MzQCFile.root (MzQCFile.toJson d) in
   has (MzQCFile.toJson d) "mzQC" = true ∧
   has inner "version" = true ∧
   has inner "creationDate" = true ∧
   has inner "contactName" = negb (empty (MzQCFile.contactName d)) ∧
   has inner "contactAddress" = negb (empty (MzQCFile.contactAddress d)) ∧
   has inner "description" = negb (empty (MzQCFile.description d)) ∧
   has inner "controlledVocabularies" = negb (vempty (MzQCFile.controlledVocabularies d)) ∧
   has inner "runQualities" = negb (vempty (MzQCFile.runQualities d)) ∧
   has inner "setQualities" = negb (vempty (MzQCFile.setQualities d))).
Proof.
  cbv zeta. unfold Json.contains.
  destruct (ControlledVocabulary_fields c) as (-> & -> & -> & ->).
  destruct (CvParameter_fields p) as (-> & -> & -> & ->).
  destruct (AnalysisSoftware_fields s) as (-> & -> & -> & ->).
  destruct (InputFile_fields f) as (-> & -> & -> & ->).
  destruct (QualityMetric_fields m) as (-> & -> & -> & -> & ->).
  destruct (RunQuality_fields r) as (-> & -> & -> & ->).
  destruct (SetQuality_fields q) as (-> & -> & ->).
  destruct (MzQCFile_fields d) as (-> & -> & -> & -> & -> & -> & -> & ->).
  destruct (MzQCFile_root d) as [-> _].
  repeat split; try done;
    match goal with
    | |- context [negb ?b] => by destruct b
    | |- context [is_Some ?o] => by destruct o
    end.
Qed.

(** C9.  A document whose contact name, contact address and description are
    empty and whose three lists are empty is encoded as the root key over an
    object with exactly the keys [version] and [creationDate]: none of the
    six other keys occurs, neither in that object nor beside the root key. *)
Theorem C9_omission (d : MzQCFile.t) :
  MzQCFile.contactName d = "" →
  MzQCFile.contactAddress d = "" →
  MzQCFile.description d = "" →
  MzQCFile.controlledVocabularies d = [] →
  MzQCFile.runQualities d = [] →
  MzQCFile.setQualities d = [] →
  MzQCFile.toJson d =
    Json.object_of
      [("mzQC", Json.object_of [("version", JString (MzQCFile.version d));
                                ("creationDate", JString (MzQCFile.creationDate d))])] ∧
  Forall (λ key, Json.contains (MzQCFile.root (MzQCFile.toJson d)) key = false ∧
                 Json.contains (MzQCFile.toJson d) key = false)
    ["contactName"; "contactAddress"; "description"; "controlledVocabularies";
     "runQualities"; "setQualities"].
Proof.
  destruct d as [cd v cn ca ds cvs rqs sqs]; cbn; intros -> -> -> -> -> ->.
  split; [reflexivity|]. repeat constructor.
Qed.

Lemma C9_omission_witness :
  Forall (λ key, Json.contains (MzQCFile.root (MzQCFile.toJson bare_document)) key = false ∧
                 Json.contains (MzQCFile.toJson bare_document) key = false)
    ["contactName"; "contactAddress"; "description"; "controlledVocabularies";
     "runQualities"; "setQualities"].
Proof. apply (C9_omission bare_document); reflexivity. Defined.

(** C8, as the claim states it, fails: for an inner object that has a key
    [mzQC] of its own the unwrapped form is decoded from the value under
    that key, and the two forms give different versions. *)
Lemma C8_wrapped_unwrapped_differ :
  MzQCFile.version <$> MzQCFile.fromJsonStatic 0 0 (wrap inner_with_root_key)
    = Ok "1.0.0" ∧
  MzQCFile.version <$> MzQCFile.fromJsonStatic 0 0 inner_with_root_key
    = Ok "2.0.0" ∧
  MzQCFile.fromJsonStatic 0 0 (wrap inner_with_root_key)
    ≠ MzQCFile.fromJsonStatic 0 0 inner_with_root_key.
Proof. repeat split; vm_compute; congruence. Qed.

(** C8, amended.  For every inner wire value that has no key [mzQC] of its
    own, decoding the wrapped form and decoding the unwrapped form give the
    same result, on any receiver and at the same clock reading. *)
Theorem C8_wrapped_unwrapped (now : Z) (j : json) (self : MzQCFile.t) :
  Json.contains j "mzQC" = false →
  MzQCFile.fromJson now (wrap j) self = MzQCFile.fromJson now j self.
Proof.
  intros Hno. unfold MzQCFile.fromJson.
  replace (MzQCFile.root (wrap j)) with j by reflexivity.
  replace (MzQCFile.root j) with j; [done|].
  unfold MzQCFile.root. unfold Json.contains in Hno.
  by destruct (Json.get j "mzQC").
Qed.

Lemma C8_wrapped_unwrapped_witness :
  MzQCFile.fromJson 0 (wrap (MzQCFile.root (MzQCFile.toJson sample_document)))
    (MzQCFile.default 0)
  = MzQCFile.fromJson 0 (MzQCFile.root (MzQCFile.toJson sample_document))
      (MzQCFile.default 0).
Proof. apply C8_wrapped_unwrapped. vm_compute. reflexivity. Defined.

(** C4, as the claim states it, fails: decoding the wire document
    [{"mzQC": {}}] into a document that holds a controlled vocabulary keeps
    that list instead of emptying it. *)
Lemma C4_missing_list_keeps_prior :
  MzQCFile.controlledVocabularies
    <$> MzQCFile.fromJson 0 (wrap (JObject ∅)) prior_document
  = Ok (MzQCFile.controlledVocabularies prior_document) ∧
  MzQCFile.controlledVocabularies prior_document ≠ [].
Proof. split; [vm_compute; reflexivity | discriminate]. Qed.

Lemma bind_Ok {A B} (m : result A) (f : A → result B) (b : B) :
  m ≫= f = Ok b → ∃ a, m = Ok a ∧ f a = Ok b.
Proof. destruct m as [a|e]; [by exists a | done]. Qed.

Lemma value_Ok (j : json) (key dflt s : string) :
  Json.value j key dflt = Ok s → s = string_at j key dflt.
Proof.
  unfold Json.value, string_at, Json.get. destruct j as [| | | | | | |m]; try done.
  destruct (m !! key) as [[]|]; cbn; congruence.
Qed.

Ltac invert_decode H :=
  repeat (let a := fresh "x" in let Ha := fresh "Hx" in
          apply bind_Ok in H as (a & Ha & H));
  injection H as <-.

(** The creation date of a decoded document is the string stored in the
    wire object, or the formatted clock reading when the key is missing. *)
Lemma decoded_creationDate (now : Z) (j : json) (self d : MzQCFile.t) :
  MzQCFile.fromJson now j self = Ok d →
  MzQCFile.creationDate d
    = string_at (MzQCFile.root j) "creationDate" (MzQCFile.getCurrentIsoTime now) ∧
  MzQCFile.version d = string_at (MzQCFile.root j) "version" "".
Proof.
  intros H. unfold MzQCFile.fromJson in H. invert_decode H. cbn.
  split; [|by apply value_Ok].
  unfold string_at.
  destruct (Json.get (MzQCFile.root j) "creationDate") as [[]|]; cbn in *; congruence.
Qed.

Lemma mapM_Ok_eq {A B} (f : A → result B) (g : A → B) (l : list A) (k : list B) :
  (∀ x y, f x = Ok y → y = g x) → mapM f l = Ok k → k = g <$> l.
Proof.
  intros Hfg. revert k. induction l as [|x l IH]; intros k Hk.
  - by injection Hk as <-.
  - cbn in Hk. apply bind_Ok in Hk as (y & Hy & Hk).
    apply bind_Ok in Hk as (k' & Hk' & Hk). injection Hk as <-.
    cbn. by rewrite (Hfg x y Hy), (IH k' Hk').
Qed.

(** A list decoder: an array is decoded element by element, anything else
    leaves the list of the receiver. *)
Lemma decoded_array {A} (f : json → result A) (g : json → A) (j : json)
    (key : string) (prior l : list A) :
  (∀ x y, f x = Ok y → y = g x) →
  match Json.get j key with
  | Some (JArray vs) => mapM f vs
  | _ => Ok prior
  end = Ok l →
  l = match Json.get j key with
      | Some (JArray vs) => g <$> vs
      | _ => prior
      end.
Proof.
  intros Hfg H. destruct (Json.get j key) as [[]|]; try congruence.
  by eapply mapM_Ok_eq.
Qed.

Lemma get_string_Ok (v : json) (s : string) :
  Json.get_string v = Ok s → s = Fresh.string_of v.
Proof. destruct v; cbn; congruence. Qed.

Lemma ControlledVocabulary_decoded (j : json) (self c : ControlledVocabulary.t) :
  ControlledVocabulary.fromJson j self = Ok c → c = Fresh.vocabulary j.
Proof.
  intros H. unfold ControlledVocabulary.fromJson in H. invert_decode H.
  unfold Fresh.vocabulary. f_equal; by apply value_Ok.
Qed.

Lemma CvParameter_decoded (j : json) (self p : CvParameter.t) :
  CvParameter.fromJson j self = Ok p → p = Fresh.parameter j.
Proof.
  intros H. unfold CvParameter.fromJson in H. invert_decode H.
  unfold Fresh.parameter. f_equal; by apply value_Ok.
Qed.

Lemma AnalysisSoftware_decoded (j : json) (self s : AnalysisSoftware.t) :
  AnalysisSoftware.fromJson j self = Ok s → s = Fresh.software j.
Proof.
  intros H. unfold AnalysisSoftware.fromJson in H. invert_decode H.
  unfold Fresh.software. f_equal; by apply value_Ok.
Qed.

(** An input file is decoded from the wire value and, for a key that is
    missing, from the receiver. *)
Lemma InputFile_decoded (j : json) (self f : InputFile.t) :
  InputFile.fromJson j self = Ok f →
  f = {| InputFile.location := string_at j "location" "";
         InputFile.name := string_at j "name" "";
         InputFile.fileFormat :=
           match Json.get j "fileFormat" with
           | Some ff => Some (Fresh.parameter ff)
           | None => InputFile.fileFormat self
           end;
         InputFile.fileProperties :=
           match Json.get j "fileProperties" with
           | Some (JArray props) => Fresh.parameter <$> props
           | _ => InputFile.fileProperties self
           end |}.
Proof.
  intros H. unfold InputFile.fromJson in H. invert_decode H.
  f_equal; try by apply value_Ok.
  - destruct (Json.get j "fileFormat") as [ff|]; [|congruence].
    destruct (CvParameter.fromJson ff CvParameter.default) as [p|] eqn:Hp; [|done].
    injection Hx1 as <-. by rewrite (CvParameter_decoded _ _ _ Hp).
  - eapply decoded_array; [|done]. exact (λ x y, CvParameter_decoded x CvParameter.default y).
Qed.

Lemma QualityMetric_decoded (j : json) (self m : QualityMetric.t) :
  QualityMetric.fromJson j self = Ok m →
  m = {| QualityMetric.accession := string_at j "accession" "";
         QualityMetric.name := string_at j "name" "";
         QualityMetric.description := string_at j "description" "";
         QualityMetric.value := default (QualityMetric.value self) (Json.get j "value");
         QualityMetric.unit := string_at j "unit" "" |}.
Proof.
  intros H. unfold QualityMetric.fromJson in H. invert_decode H.
  f_equal; by apply value_Ok.
Qed.

Lemma InputFile_fresh (j : json) (f : InputFile.t) :
  InputFile.fromJson j InputFile.default = Ok f → f = Fresh.input_file j.
Proof.
  intros ->%InputFile_decoded. unfold Fresh.input_file, Fresh.array_at.
  f_equal; try done; by repeat case_match.
Qed.

Lemma QualityMetric_fresh (j : json) (m : QualityMetric.t) :
  QualityMetric.fromJson j QualityMetric.default = Ok m → m = Fresh.metric j.
Proof. by intros ->%QualityMetric_decoded. Qed.

Lemma RunQuality_decoded (j : json) (self r : RunQuality.t) :
  RunQuality.fromJson j self = Ok r →
  r = {| RunQuality.label := string_at j "label" "";
         RunQuality.inputFiles :=
           match Json.get j "inputFiles" with
           | Some (JArray files) => Fresh.input_file <$> files
           | _ => RunQuality.inputFiles self
           end;
         RunQuality.analysisSoftware :=
           match Json.get j "analysisSoftware" with
           | Some (JArray sws) => Fresh.software <$> sws
           | _ => RunQuality.analysisSoftware self
           end;
         RunQuality.metrics :=
           match Json.get j "metrics" with
           | Some (JArray ms) => Fresh.metric <$> ms
           | _ => RunQuality.metrics self
           end |}.
Proof.
  intros H. unfold RunQuality.fromJson in H. invert_decode H.
  f_equal; try by apply value_Ok.
  - eapply decoded_array; [|done]. apply InputFile_fresh.
  - eapply decoded_array; [|done]. exact (λ x y, AnalysisSoftware_decoded x AnalysisSoftware.default y).
  - eapply decoded_array; [|done]. apply QualityMetric_fresh.
Qed.

Lemma SetQuality_decoded (j : json) (self s : SetQuality.t) :
  SetQuality.fromJson j self = Ok s →
  s = {| SetQuality.label := string_at j "label" "";
         SetQuality.setRefs :=
           match Json.get j "setRefs" with
           | Some (JArray refs) => Fresh.string_of <$> refs
           | _ => SetQuality.setRefs self
           end;
         SetQuality.metrics :=
           match Json.get j "metrics" with
           | Some (JArray ms) => Fresh.metric <$> ms
           | _ => SetQuality.metrics self
           end |}.
Proof.
  intros H. unfold SetQuality.fromJson in H. invert_decode H.
  f_equal; try by apply value_Ok.
  - eapply decoded_array; [|done]. apply get_string_Ok.
  - eapply decoded_array; [|done]. apply QualityMetric_fresh.
Qed.

Lemma RunQuality_fresh (j : json) (r : RunQuality.t) :
  RunQuality.fromJson j RunQuality.default = Ok r → r = Fresh.run_quality j.
Proof.
  intros ->%RunQuality_decoded. unfold Fresh.run_quality, Fresh.array_at.
  f_equal; try done; by repeat case_match.
Qed.

Lemma SetQuality_fresh (j : json) (s : SetQuality.t) :
  SetQuality.fromJson j SetQuality.default = Ok s → s = Fresh.set_quality j.
Proof.
  intros ->%SetQuality_decoded. unfold Fresh.set_quality, Fresh.array_at.
  f_equal; try done; by repeat case_match.
Qed.

(** C4, amended.  Whenever decoding into a document with arbitrary prior
    contents completes: the five string fields are overwritten, each by the
    string stored in the wire object or, when its key is missing, by the
    empty string (by the formatted clock reading for the creation date);
    each of the three lists is replaced by the decoded elements when the
    wire object has its key with an array, and otherwise keeps its prior
    value.  Nested entities are decoded into freshly constructed objects:
    the elements of a replaced list are what [Fresh] reads off the elements
    of the array, a function of the wire value alone, so that a nested
    list, a file format or a metric payload whose key is missing is empty,
    null or the null payload, whatever the receiver and the objects in its
    lists held. *)
Theorem C4_decode_overwrites (now : Z) (j : json) (self d : MzQCFile.t) :
  MzQCFile.fromJson now j self = Ok d →
  let mzqc := MzQCFile.root j in
  (MzQCFile.creationDate d
     = string_at mzqc "creationDate" (MzQCFile.getCurrentIsoTime now) ∧
   MzQCFile.version d = string_at mzqc "version" "" ∧
   MzQCFile.contactName d = string_at mzqc "contactName" "" ∧
   MzQCFile.contactAddress d = string_at mzqc "contactAddress" "" ∧
   MzQCFile.description d = string_at mzqc "description" "") ∧
  (match Json.get mzqc "controlledVocabularies" with
   | Some (JArray vs) =>
       mapM (λ v, ControlledVocabulary.fromJson v ControlledVocabulary.default) vs
         = Ok (MzQCFile.controlledVocabularies d)
   | _ => MzQCFile.controlledVocabularies d = MzQCFile.controlledVocabularies self
   end ∧
   match Json.get mzqc "runQualities" with
   | Some (JArray rqs) =>
       mapM (λ rq, RunQuality.fromJson rq RunQuality.default) rqs
         = Ok (MzQCFile.runQualities d)
   | _ => MzQCFile.runQualities d = MzQCFile.runQualities self
   end ∧
   match Json.get mzqc "setQualities" with
   | Some (JArray sqs) =>
       mapM (λ sq, SetQuality.fromJson sq SetQuality.default) sqs
         = Ok (MzQCFile.setQualities d)
   | _ => MzQCFile.setQualities d = MzQCFile.setQualities self
   end) ∧
  (∀ rq r, RunQuality.fromJson rq RunQuality.default = Ok r →
     (Json.get rq "inputFiles" = None → RunQuality.inputFiles r = []) ∧
     (Json.get rq "analysisSoftware" = None → RunQuality.analysisSoftware r = []) ∧
     (Json.get rq "metrics" = None → RunQuality.metrics r = [])) ∧
  (∀ sq s, SetQuality.fromJson sq SetQuality.default = Ok s →
     (Json.get sq "setRefs" = None → SetQuality.setRefs s = []) ∧
     (Json.get sq "metrics" = None → SetQuality.metrics s = [])) ∧
  (∀ file f, InputFile.fromJson file InputFile.default = Ok f →
     (Json.get file "fileFormat" = None → InputFile.fileFormat f = None) ∧
     (Json.get file "fileProperties" = None → InputFile.fileProperties f = [])) ∧
  (∀ metric m, QualityMetric.fromJson metric QualityMetric.default = Ok m →
     Json.get metric "value" = None → QualityMetric.value m = JNull) ∧
  (MzQCFile.controlledVocabularies d
     = match Json.get mzqc "controlledVocabularies" with
       | Some (JArray vs) => Fresh.vocabulary <$> vs
       | _ => MzQCFile.controlledVocabularies self
       end ∧
   MzQCFile.runQualities d
     = match Json.get mzqc "runQualities" with
       | Some (JArray rqs) => Fresh.run_quality <$> rqs
       | _ => MzQCFile.runQualities self
       end ∧
   MzQCFile.setQualities d
     = match Json.get mzqc "setQualities" with
       | Some (JArray sqs) => Fresh.set_quality <$> sqs
       | _ => MzQCFile.setQualities self
       end).
Proof.
  intros H mzqc. split; [|split; [|split; [|split; [|split; [|split]]]]].
  - unfold MzQCFile.fromJson in H. fold mzqc in H. invert_decode H. cbn.
    repeat split; try by apply value_Ok.
    unfold string_at.
    destruct (Json.get mzqc "creationDate") as [[]|]; cbn in *; congruence.
  - unfold MzQCFile.fromJson in H. fold mzqc in H. invert_decode H. cbn.
    repeat split.
    + destruct (Json.get mzqc "controlledVocabularies") as [[]|]; cbn in *; congruence.
    + destruct (Json.get mzqc "runQualities") as [[]|]; cbn in *; congruence.
    + destruct (Json.get mzqc "setQualities") as [[]|]; cbn in *; congruence.
  - intros rq r Hd. unfold RunQuality.fromJson in Hd.
    repeat split; intros Hk; rewrite Hk in Hd; invert_decode Hd; cbn in *; congruence.
  - intros sq s Hd. unfold SetQuality.fromJson in Hd.
    repeat split; intros Hk; rewrite Hk in Hd; invert_decode Hd; cbn in *; congruence.
  - intros file f Hd. unfold InputFile.fromJson in Hd.
    repeat split; intros Hk; rewrite Hk in Hd; invert_decode Hd; cbn in *; congruence.
  - intros metric m Hd Hk. unfold QualityMetric.fromJson in Hd. rewrite Hk in Hd.
    invert_decode Hd. done.
  - unfold MzQCFile.fromJson in H. fold mzqc in H. invert_decode H. cbn.
    split; [|split].
    + eapply decoded_array; [|done]. exact (λ x y, ControlledVocabulary_decoded x ControlledVocabulary.default y).
    + eapply decoded_array; [|done]. apply RunQuality_fresh.
    + eapply decoded_array; [|done]. apply SetQuality_fresh.
Qed.

Lemma C4_decode_overwrites_witness :
  MzQCFile.fromJson 0 sparse_wire full_document = Ok sparse_decoded ∧
  MzQCFile.contactName sparse_decoded
    = string_at (MzQCFile.root sparse_wire) "contactName" "" ∧
  MzQCFile.controlledVocabularies sparse_decoded
    = MzQCFile.controlledVocabularies full_document ∧
  MzQCFile.runQualities sparse_decoded
    = [Fresh.run_quality
         (Json.object_of
            [("label", JString "Run B");
             ("inputFiles", JArray [Json.object_of [("name", JString "b.mzML")]]);
             ("metrics", JArray [Json.object_of [("accession", JString "QC:1")]])])].
Proof.
  assert (MzQCFile.fromJson 0 sparse_wire full_document = Ok sparse_decoded) as Hd
    by (vm_compute; reflexivity).
  split; [exact Hd|].
  destruct (C4_decode_overwrites 0 _ _ _ Hd)
    as ((_ & _ & Hn & _) & (Hcv & _) & _ & _ & _ & _ & _ & Hrq & _).
  split; [exact Hn|]. split; [exact Hcv | exact Hrq].
Defined.

(** * Properties of the validator and of the file boundary *)

Lemma reasons_NoDup :
  NoDup [reason_root; reason_required; reason_qualities; reason_vocabularies].
Proof. apply (bool_decide_unpack _). vm_compute. exact I. Qed.

Section validator.
Variable parse : string → string + json.

Lemma loadSchema_files (schemaPath : string) (w : World) :
  files (loadSchema parse schemaPath w).2 = files w.
Proof.
  unfold loadSchema. destruct (schemaLoaded w); [done|].
  destruct (files w !! schemaPath) as [text|]; [|done].
  by destruct (parse text).
Qed.

Lemma loadSchema_cerr (schemaPath : string) (w : World) :
  cerr (loadSchema parse schemaPath w).2 = cerr w.
Proof.
  unfold loadSchema. destruct (schemaLoaded w); [done|].
  destruct (files w !! schemaPath) as [text|]; [|done].
  by destruct (parse text).
Qed.

(** The validator never touches a file. *)
Lemma validateAgainstSchema_files (j : json) (schemaPath : string) (w : World) :
  files (validateAgainstSchema parse j schemaPath w).2 = files w.
Proof.
  unfold validateAgainstSchema.
  pose proof (loadSchema_files schemaPath w) as Hf.
  destruct (loadSchema parse schemaPath w) as [[js|e] w']; cbn in Hf;
    repeat case_match; by simplify_eq/=.
Qed.

(** An encoded document fails the check of the lists it has omitted. *)
Lemma validateAgainstSchema_encoded (d : MzQCFile.t) (schemaPath : string) (w : World) :
  MzQCFile.controlledVocabularies d = [] ∨
  (MzQCFile.runQualities d = [] ∧ MzQCFile.setQualities d = []) →
  (validateAgainstSchema parse (MzQCFile.toJson d) schemaPath w).1 = false.
Proof.
  intros Hd. unfold validateAgainstSchema.
  destruct (loadSchema parse schemaPath w) as [[js|e] w']; [|done].
  destruct (MzQCFile_root d) as [Hroot _].
  destruct (MzQCFile_fields d) as (_ & _ & _ & _ & _ & Hcv & Hrq & Hsq).
  cbv zeta in *.
  rewrite Hroot at 1. cbn [Json.get]. rewrite lookup_singleton_eq.
  unfold Json.contains at 3 4 5. rewrite Hcv, Hrq, Hsq.
  destruct Hd as [->|[-> ->]]; cbn [vempty]; repeat case_match; done.
Qed.

Lemma get_wrap (j : json) : Json.get (wrap j) "mzQC" = Some j.
Proof. reflexivity. Qed.

(** The verdict on a document whose root object is the map [m]. *)
Lemma validateAgainstSchema_object (m : gmap string json) (schemaPath : string)
    (w w' : World) (schemaJson : json) :
  loadSchema parse schemaPath w = (Ok schemaJson, w') →
  validateAgainstSchema parse (wrap (JObject m)) schemaPath w =
    if negb (bool_decide (is_Some (m !! "version")))
       || negb (bool_decide (is_Some (m !! "creationDate")))
    then (false, log reason_required w')
    else if negb (bool_decide (is_Some (m !! "runQualities")))
            && negb (bool_decide (is_Some (m !! "setQualities")))
    then (false, log reason_qualities w')
    else if negb (bool_decide (is_Some (m !! "controlledVocabularies")))
    then (false, log reason_vocabularies w')
    else (true, w').
Proof.
  intros Hload. unfold validateAgainstSchema. rewrite Hload, get_wrap.
  unfold Json.contains, Json.get.
  destruct (m !! "version"), (m !! "creationDate"), (m !! "runQualities"),
    (m !! "setQualities"), (m !! "controlledVocabularies"); reflexivity.
Qed.

(** Taking a required key out of an accepted document gets it rejected, for
    the reason of the check that asks for the key. *)
Lemma validateAgainstSchema_without (j : json) (schemaPath : string)
    (w w' : World) (schemaJson : json) :
  loadSchema parse schemaPath w = (Ok schemaJson, w') →
  (validateAgainstSchema parse j schemaPath w).1 = true →
  validateAgainstSchema parse (without "version" j) schemaPath w
    = (false, log reason_required w') ∧
  validateAgainstSchema parse (without "creationDate" j) schemaPath w
    = (false, log reason_required w') ∧
  validateAgainstSchema parse (without "runQualities" (without "setQualities" j))
      schemaPath w
    = (false, log reason_qualities w') ∧
  validateAgainstSchema parse (without "controlledVocabularies" j) schemaPath w
    = (false, log reason_vocabularies w').
Proof.
  intros Hload Hok. unfold validateAgainstSchema in Hok. rewrite Hload in Hok.
  unfold without at 1 2 4 5. unfold MzQCFile.root.
  destruct (Json.get j "mzQC") as [mzqc|]; [|done].
  destruct mzqc as [| | | | | | |m]; try done.
  unfold without, MzQCFile.root. rewrite get_wrap.
  rewrite !(validateAgainstSchema_object _ _ _ _ _ Hload).
  unfold Json.contains, Json.get in Hok.
  repeat (rewrite lookup_delete_eq || rewrite lookup_delete_ne by done).
  destruct (m !! "version"), (m !! "creationDate"), (m !! "runQualities"),
    (m !! "setQualities"), (m !! "controlledVocabularies"); try done;
    repeat split; reflexivity.
Qed.

(** The verdict and the reason, check by check. *)
Lemma validateAgainstSchema_checks (j : json) (schemaPath : string) (w w' : World)
    (schemaJson : json) :
  loadSchema parse schemaPath w = (Ok schemaJson, w') →
  let has key := match Json.get j "mzQC" with
                 | Some mzqc => Json.contains mzqc key
                 | None => false
                 end in
  let verdict := validateAgainstSchema parse j schemaPath w in
  (verdict.1 = true ↔
     Json.contains j "mzQC" = true ∧ has "version" = true ∧
     has "creationDate" = true ∧ has "controlledVocabularies" = true ∧
     (has "runQualities" = true ∨ has "setQualities" = true)) ∧
  (Json.contains j "mzQC" = false → verdict = (false, log reason_root w')) ∧
  (Json.contains j "mzQC" = true →
   has "version" = false ∨ has "creationDate" = false →
   verdict = (false, log reason_required w')) ∧
  (has "version" = true → has "creationDate" = true →
   has "runQualities" = false → has "setQualities" = false →
   verdict = (false, log reason_qualities w')) ∧
  (has "version" = true → has "creationDate" = true →
   has "runQualities" = true ∨ has "setQualities" = true →
   has "controlledVocabularies" = false →
   verdict = (false, log reason_vocabularies w')) ∧
  (verdict.1 = true → verdict.2 = w').
Proof.
  intros Hload. cbv zeta. unfold validateAgainstSchema. rewrite Hload.
  destruct (Json.get j "mzQC") as [mzqc|] eqn:Hroot.
  - assert (Json.contains j "mzQC" = true) as -> by (unfold Json.contains; by rewrite Hroot).
    destruct (Json.contains mzqc "version"), (Json.contains mzqc "creationDate"),
      (Json.contains mzqc "runQualities"), (Json.contains mzqc "setQualities"),
      (Json.contains mzqc "controlledVocabularies"); cbn; intuition congruence.
  - assert (Json.contains j "mzQC" = false) as -> by (unfold Json.contains; by rewrite Hroot).
    cbn; intuition congruence.
Qed.

(** C3, amended.  When the schema loads, the validator accepts exactly the
    wire documents that have a root object [mzQC] with [version],
    [creationDate], [controlledVocabularies] and at least one of
    [runQualities] and [setQualities]; the four checks run in the order
    root, version and creationDate, runQualities or setQualities,
    controlledVocabularies, the first one that fails decides the reason,
    and the four reasons differ from one another (a missing [version] and
    a missing [creationDate] fail the same check and share its reason).
    An accepted document leaves the error stream as it was, and taking
    [version], [creationDate], [controlledVocabularies], or both
    [runQualities] and [setQualities], out of it gets it rejected. *)
Theorem C3_presence_checks (j : json) (schemaPath : string) (w w' : World)
    (schemaJson : json) :
  loadSchema parse schemaPath w = (Ok schemaJson, w') →
  let has key := match Json.get j "mzQC" with
                 | Some mzqc => Json.contains mzqc key
                 | None => false
                 end in
  let verdict := validateAgainstSchema parse j schemaPath w in
  (verdict.1 = true ↔
     Json.contains j "mzQC" = true ∧ has "version" = true ∧
     has "creationDate" = true ∧ has "controlledVocabularies" = true ∧
     (has "runQualities" = true ∨ has "setQualities" = true)) ∧
  (Json.contains j "mzQC" = false → verdict = (false, log reason_root w')) ∧
  (Json.contains j "mzQC" = true →
   has "version" = false ∨ has "creationDate" = false →
   verdict = (false, log reason_required w')) ∧
  (has "version" = true → has "creationDate" = true →
   has "runQualities" = false → has "setQualities" = false →
   verdict = (false, log reason_qualities w')) ∧
  (has "version" = true → has "creationDate" = true →
   has "runQualities" = true ∨ has "setQualities" = true →
   has "controlledVocabularies" = false →
   verdict = (false, log reason_vocabularies w')) ∧
  (verdict.1 = true → verdict.2 = w') ∧
  (verdict.1 = true →
   validateAgainstSchema parse (without "version" j) schemaPath w
     = (false, log reason_required w') ∧
   validateAgainstSchema parse (without "creationDate" j) schemaPath w
     = (false, log reason_required w') ∧
   validateAgainstSchema parse (without "runQualities" (without "setQualities" j))
       schemaPath w
     = (false, log reason_qualities w') ∧
   validateAgainstSchema parse (without "controlledVocabularies" j) schemaPath w
     = (false, log reason_vocabularies w')) ∧
  NoDup [reason_root; reason_required; reason_qualities; reason_vocabularies].
Proof.
  intros Hload.
  destruct (validateAgainstSchema_checks j schemaPath w w' schemaJson Hload)
    as (H1 & H2 & H3 & H4 & H5 & H6).
  cbv zeta in *. repeat (split; [assumption|]). split.
  - by apply (validateAgainstSchema_without j schemaPath w w' schemaJson).
  - apply reasons_NoDup.
Qed.

End validator.

Lemma C3_presence_checks_witness :
  (validateAgainstSchema parse_any (MzQCFile.toJson sample_document)
     "mzqc_schema.json" world0).1 = true.
Proof.
  apply (C3_presence_checks parse_any (MzQCFile.toJson sample_document)
           "mzqc_schema.json" world0 (cache_schema (JObject ∅) world0) (JObject ∅)).
  - vm_compute. reflexivity.
  - vm_compute. intuition.
Defined.

(** C3, as the claim states it, fails twice: a document with every required
    element is rejected when the schema file does not open, and a document
    without [version] and one without [creationDate] are rejected for the
    same reason, not for a reason of their own. *)
Lemma C3_rejections :
  (validateAgainstSchema parse_any (MzQCFile.toJson sample_document)
     "absent.json" world0).1 = false ∧
  reason (validateAgainstSchema parse_any
            (without "version" (MzQCFile.toJson sample_document))
            "mzqc_schema.json" world0) = Some reason_required ∧
  reason (validateAgainstSchema parse_any
            (without "creationDate" (MzQCFile.toJson sample_document))
            "mzqc_schema.json" world0) = Some reason_required.
Proof. repeat split; vm_compute; reflexivity. Qed.

Section save.
Variable parse : string → string + json.
Variable dump : nat → json → option string.
Variable writable : string → bool.

(** C10.  Saving, with a schema path given, a document whose list of
    controlled vocabularies is empty, or whose run qualities and set
    qualities are both empty, throws the schema error, and the files are
    what they were: the encoder omits the key of an empty list, the
    validator asks for it, and the output stream is opened only after the
    validation. *)
Theorem C10_save_rejected (d : MzQCFile.t) (filepath schemaPath : string)
    (w : World) :
  empty schemaPath = false →
  MzQCFile.controlledVocabularies d = [] ∨
  (MzQCFile.runQualities d = [] ∧ MzQCFile.setQualities d = []) →
  (toFile parse dump writable d filepath schemaPath w).1
    = Throw (runtime_error "Generated mzQC does not conform to schema") ∧
  files (toFile parse dump writable d filepath schemaPath w).2 = files w.
Proof.
  intros Hpath Hd. unfold toFile. rewrite Hpath. cbn [negb].
  pose proof (validateAgainstSchema_encoded parse d schemaPath w Hd) as Hv.
  pose proof (validateAgainstSchema_files parse (MzQCFile.toJson d) schemaPath w) as Hf.
  destruct (validateAgainstSchema parse (MzQCFile.toJson d) schemaPath w)
    as [valid w1]. cbn [fst snd] in *. by subst valid.
Qed.

End save.

Lemma C10_save_rejected_witness :
  (toFile parse_any dump_blank (λ _, true) bare_document "out.mzqc"
     "mzqc_schema.json" world0).1
    = Throw (runtime_error "Generated mzQC does not conform to schema") ∧
  files (toFile parse_any dump_blank (λ _, true) bare_document "out.mzqc"
           "mzqc_schema.json" world0).2 = files world0.
Proof.
  apply (C10_save_rejected parse_any dump_blank (λ _, true) bare_document
           "out.mzqc" "mzqc_schema.json" world0).
  - reflexivity.
  - left. reflexivity.
Defined.

(** * Properties of the term cache *)

Section term_cache.
Import CvTermCache.

Lemma processLine_skipped (cur : CvTermDetails.t) (line : string) :
  skipped line = true → processLine cur line = cur.
Proof.
  destruct line as [|c line]; [done|]. cbn [skipped].
  intros ->%Ascii.eqb_eq. reflexivity.
Qed.

Lemma step_marker (st : scan) :
  step st marker =
    {| currentTerm := CvTermDetails.default; inTermDef := true; cache := flush st |}.
Proof. reflexivity. Qed.

Lemma step_outside (st : scan) (line : string) :
  inTermDef st = false → line ≠ marker → step st line = st.
Proof.
  intros Hin Hne. unfold step. destruct (skipped line); [done|].
  apply String.eqb_neq in Hne. fold marker. by rewrite Hne, Hin.
Qed.

Lemma step_inside (st : scan) (line : string) :
  inTermDef st = true → line ≠ marker →
  step st line = {| currentTerm := processLine (currentTerm st) line;
                    inTermDef := true; cache := cache st |}.
Proof.
  intros Hin Hne. unfold step. destruct (skipped line) eqn:Hskip.
  - rewrite processLine_skipped by done. destruct st; cbn in *; by subst.
  - apply String.eqb_neq in Hne. fold marker. by rewrite Hne, Hin.
Qed.

Lemma fold_outside (pre : list string) (st : scan) :
  Forall (λ l, l ≠ marker) pre → inTermDef st = false →
  fold_left step pre st = st.
Proof.
  induction 1 as [|l pre Hl _ IH]; intros Hin; [done|].
  cbn [fold_left]. rewrite step_outside by done. by apply IH.
Qed.

Lemma fold_inside (b : list string) (st : scan) :
  Forall (λ l, l ≠ marker) b → inTermDef st = true →
  fold_left step b st =
    {| currentTerm := fold_left processLine b (currentTerm st);
       inTermDef := true; cache := cache st |}.
Proof.
  intros Hb. revert st. induction Hb as [|l b Hl _ IH]; intros st Hin.
  - destruct st; cbn in *; by subst.
  - cbn [fold_left]. rewrite step_inside by done. by rewrite IH.
Qed.

Lemma flush_inside (cur : CvTermDetails.t) (m : gmap string CvTermDetails.t) :
  flush {| currentTerm := cur; inTermDef := true; cache := m |} = insert_term m cur.
Proof. unfold flush, insert_term. cbn. by destruct (empty _). Qed.

Lemma fold_blocks (blocks : list (list string)) (st : scan) :
  Forall (Forall (λ l, l ≠ marker)) blocks →
  flush (fold_left step (concat (cons marker <$> blocks)) st) =
    fold_left insert_term (block_term <$> blocks) (flush st).
Proof.
  intros Hbs. revert st. induction Hbs as [|b blocks Hb _ IH]; intros st; [done|].
  cbn [fmap list_fmap concat fold_left app].
  rewrite fold_left_app, step_marker, (fold_inside b) by done.
  rewrite IH. by rewrite flush_inside.
Qed.

(** The cache after scanning a text of blocks: the records of the blocks
    entered in order into the cache as it stood. *)
Lemma scan_lines_blocks (pre : list string) (blocks : list (list string))
    (c : gmap string CvTermDetails.t) :
  Forall (λ l, l ≠ marker) pre →
  Forall (Forall (λ l, l ≠ marker)) blocks →
  scan_lines (lines_of pre blocks) c =
    fold_left insert_term (block_term <$> blocks) c.
Proof.
  intros Hpre Hbs. unfold scan_lines, lines_of.
  rewrite fold_left_app, (fold_outside pre) by done.
  by rewrite fold_blocks.
Qed.

Lemma processLine_accession (cur : CvTermDetails.t) (line : string) :
  CvTermDetails.accession (processLine cur line) =
    if starts_with "id:" line then substr 3 line
    else CvTermDetails.accession cur.
Proof. unfold processLine. by repeat case_match. Qed.

Lemma block_term_accession (b : list string) :
  CvTermDetails.accession (block_term b) = block_accession b.
Proof.
  unfold block_term, block_accession.
  induction b as [|l b IH] using rev_ind; [done|].
  rewrite fold_left_app, filter_app. cbn [fold_left].
  rewrite processLine_accession.
  destruct (starts_with "id:" l) eqn:Hid.
  - rewrite filter_cons_True by done. by rewrite filter_nil, last_snoc.
  - rewrite filter_cons_False by (by rewrite Hid).
    by rewrite filter_nil, app_nil_r.
Qed.

(** A block of blank lines names no accession. *)
Lemma blank_block_accession (b : list string) :
  Forall (λ l, l = "") b → block_accession b = "".
Proof.
  intros Hb. unfold block_accession.
  replace (filter _ b) with (@nil string); [done|].
  induction Hb as [|l b -> _ IH]; [done|].
  by rewrite filter_cons_False.
Qed.

Lemma dom_fold_insert_term (ts : list CvTermDetails.t)
    (c : gmap string CvTermDetails.t) :
  dom (fold_left insert_term ts c) =
    dom c ∪ list_to_set (filter (λ a, a ≠ "") (CvTermDetails.accession <$> ts)).
Proof.
  revert c. induction ts as [|d ts IH]; intros c.
  - cbn. by rewrite (right_id_L ∅ (∪)).
  - cbn [fold_left fmap list_fmap]. rewrite IH. unfold insert_term.
    destruct (empty (CvTermDetails.accession d)) eqn:He.
    + apply empty_true in He.
      rewrite filter_cons_False; [done|]. intros Hne. by apply Hne.
    + rewrite filter_cons_True.
      * rewrite dom_insert_L, list_to_set_cons, !(assoc_L (∪)).
        f_equal. apply (comm_L (∪)).
      * intros Heq. by rewrite Heq in He.
Qed.

Lemma size_fold_insert_term (ts : list CvTermDetails.t) :
  NoDup (filter (λ a, a ≠ "") (CvTermDetails.accession <$> ts)) →
  size (fold_left insert_term ts ∅) =
    length (filter (λ a, a ≠ "") (CvTermDetails.accession <$> ts)).
Proof.
  intros Hnd. rewrite <-size_dom, dom_fold_insert_term, dom_empty_L, (left_id_L ∅ (∪)).
  by apply size_list_to_set.
Qed.

(** Scanning into a cache that already holds terms adds to it: the result
    is what the text gives on an empty cache, over what was there. *)
Lemma fold_step_union (lines : list string) (st : scan)
    (c : gmap string CvTermDetails.t) :
  let st' := fold_left step lines st in
  fold_left step lines
    {| currentTerm := currentTerm st; inTermDef := inTermDef st;
       cache := cache st ∪ c |} =
    {| currentTerm := currentTerm st'; inTermDef := inTermDef st';
       cache := cache st' ∪ c |}.
Proof.
  cbv zeta. revert st. induction lines as [|l lines IH]; intros st; [done|].
  cbn [fold_left]. rewrite <-IH. f_equal.
  unfold step, flush; cbn.
  repeat case_match; cbn; try done. by rewrite insert_union_l.
Qed.

Lemma scan_lines_union (lines : list string) (c : gmap string CvTermDetails.t) :
  scan_lines lines c = scan_lines lines ∅ ∪ c.
Proof.
  unfold scan_lines.
  pose proof (fold_step_union lines
    {| currentTerm := CvTermDetails.default; inTermDef := false; cache := ∅ |} c) as H.
  cbn in H. rewrite (left_id_L ∅ (∪)) in H. rewrite H.
  unfold flush; cbn. repeat case_match; try done. by rewrite insert_union_l.
Qed.

(** The last record with a given accession is the one the cache keeps. *)
Lemma fold_insert_term_last (ts1 ts2 : list CvTermDetails.t) (d : CvTermDetails.t)
    (c : gmap string CvTermDetails.t) :
  CvTermDetails.accession d ≠ "" →
  Forall (λ d', CvTermDetails.accession d' ≠ CvTermDetails.accession d) ts2 →
  fold_left insert_term (ts1 ++ d :: ts2) c !! CvTermDetails.accession d = Some d.
Proof.
  intros Hne Hts2. rewrite fold_left_app. cbn [fold_left].
  assert (insert_term (fold_left insert_term ts1 c) d
            !! CvTermDetails.accession d = Some d) as Hm.
  { unfold insert_term. destruct (empty _) eqn:He; [by apply empty_true in He|].
    apply lookup_insert_eq. }
  revert Hm. generalize (insert_term (fold_left insert_term ts1 c) d).
  induction Hts2 as [|d' ts2 Hd' _ IH]; intros m Hm; [done|].
  cbn [fold_left]. apply IH. unfold insert_term.
  destruct (empty _); [done|]. by rewrite lookup_insert_ne.
Qed.

End term_cache.

(** ** Claims on the term cache *)

(** C5, as the claim states it, fails: after loading [a.obo] and then
    [b.obo] the cache still holds the term of [a.obo]; the count is 2, and
    the content is not what [b.obo] gives on its own. *)
Lemma C5_reload_keeps_old_terms :
  let after_A := (CvTermCache.loadFromOboFile "a.obo" ontology_files CvTermCache.default).2 in
  let after_B := CvTermCache.loadFromOboFile "b.obo" ontology_files after_A in
  let only_B := CvTermCache.loadFromOboFile "b.obo" ontology_files CvTermCache.default in
  only_B.1 = 1%Z ∧ after_B.1 = 2%Z ∧
  is_Some (CvTermCache.termCache after_B.2 !! " MS:1000001") ∧
  CvTermCache.termCache only_B.2 !! " MS:1000001" = None.
Proof. cbv zeta. repeat split; try (vm_compute; reflexivity). eexists. vm_compute. reflexivity. Qed.

Section term_cache_claims.
Import CvTermCache.

(** C5, amended.  Loading a source into a cache that already holds terms
    merges: the cache afterwards is what the new source gives on an empty
    cache, laid over the former content, so a term of the former source
    stays unless the new source defines its accession; the count returned
    is the size of the merged cache.  Within one source the keys are the
    accessions, and among the blocks that name the same accession the
    last one is the record kept. *)
Theorem C5_reload_merges (fs : gmap string string) (A B textB : string)
    (self : CvTermCache.t) :
  fs !! B = Some textB →
  let after_A := (loadFromOboFile A fs self).2 in
  let from_B := termCache (loadFromOboFile B fs CvTermCache.default).2 in
  let after_B := loadFromOboFile B fs after_A in
  termCache after_B.2 = from_B ∪ termCache after_A ∧
  after_B.1 = Z.of_nat (size (termCache after_B.2)) ∧
  currentOboFile after_B.2 = B ∧
  (∀ pre bs1 b bs2,
     getlines textB = lines_of pre (bs1 ++ b :: bs2) →
     Forall (λ l, l ≠ marker) pre →
     Forall (Forall (λ l, l ≠ marker)) (bs1 ++ b :: bs2) →
     block_accession b ≠ "" →
     Forall (λ b', block_accession b' ≠ block_accession b) bs2 →
     from_B !! block_accession b = Some (block_term b)).
Proof.
  intros HB. cbv zeta. unfold loadFromOboFile, parseOboFile. rewrite HB.
  cbn [fst snd termCache currentOboFile CvTermCache.default].
  repeat split.
  - apply scan_lines_union.
  - intros pre bs1 b bs2 Hlines Hpre Hbs Hacc Hlater.
    rewrite Hlines, scan_lines_blocks, fmap_app, fmap_cons by done.
    rewrite <-block_term_accession in *.
    apply fold_insert_term_last; [done|].
    apply Forall_fmap. eapply Forall_impl; [exact Hlater|].
    intros b' Hb'. cbn. by rewrite !block_term_accession in *.
Qed.

(** C6, amended.  For a text of blocks whose non-empty accessions are
    pairwise distinct, loading it into a fresh cache returns the number of
    blocks that name a non-empty accession: N when each of the N blocks
    does.  A block of blank lines names none and is not counted, and the
    last block, open at the end of the input, is in the cache like the
    others. *)
Theorem C6_term_count (fs : gmap string string) (filename text : string)
    (pre : list string) (blocks : list (list string)) :
  fs !! filename = Some text →
  getlines text = lines_of pre blocks →
  Forall (λ l, l ≠ marker) pre →
  Forall (Forall (λ l, l ≠ marker)) blocks →
  NoDup (filter (λ a, a ≠ "") (block_accession <$> blocks)) →
  let loaded := loadFromOboFile filename fs CvTermCache.default in
  loaded.1 = Z.of_nat (length (filter (λ a, a ≠ "") (block_accession <$> blocks))) ∧
  (Forall (λ b, block_accession b ≠ "") blocks →
   loaded.1 = Z.of_nat (length blocks)) ∧
  (∀ b, Forall (λ l, l = "") b → block_accession b = "") ∧
  (∀ b, last blocks = Some b → block_accession b ≠ "" →
        termCache loaded.2 !! block_accession b = Some (block_term b)).
Proof.
  intros Hfile Hlines Hpre Hbs Hnd. cbv zeta.
  unfold loadFromOboFile, parseOboFile. rewrite Hfile.
  cbn [fst snd termCache currentOboFile CvTermCache.default].
  rewrite Hlines, scan_lines_blocks by done.
  assert (CvTermDetails.accession <$> (block_term <$> blocks)
          = block_accession <$> blocks) as Hacc.
  { rewrite <-list_fmap_compose. apply list_fmap_ext.
    intros ? b _. apply block_term_accession. }
  assert (size (fold_left insert_term (block_term <$> blocks) ∅)
          = length (filter (λ a, a ≠ "") (block_accession <$> blocks))) as Hsize.
  { rewrite <-Hacc. apply size_fold_insert_term. by rewrite Hacc. }
  split; [by rewrite Hsize|]. split; [|split].
  - intros Hall. rewrite Hsize. f_equal.
    rewrite <-(length_fmap block_accession blocks). f_equal.
    clear -Hall. induction Hall as [|b bs Hb _ IH]; [done|].
    cbn [fmap list_fmap]. rewrite filter_cons_True by done. by f_equal.
  - apply blank_block_accession.
  - intros b Hlast Hb.
    destruct blocks as [|b0 bs] using rev_ind; [done|].
    rewrite last_snoc in Hlast. injection Hlast as ->.
    rewrite fmap_app. cbn [fmap list_fmap].
    rewrite <-block_term_accession in *.
    by apply fold_insert_term_last.
Qed.

End term_cache_claims.

Lemma C5_reload_merges_witness :
  let after_A := (CvTermCache.loadFromOboFile "a.obo" ontology_files CvTermCache.default).2 in
  let from_B := CvTermCache.termCache
                  (CvTermCache.loadFromOboFile "b.obo" ontology_files CvTermCache.default).2 in
  let after_B := CvTermCache.loadFromOboFile "b.obo" ontology_files after_A in
  ontology_files !! "b.obo" = Some source_B ∧
  CvTermCache.termCache after_B.2 = from_B ∪ CvTermCache.termCache after_A ∧
  after_B.1 = Z.of_nat (size (CvTermCache.termCache after_B.2)).
Proof.
  cbv zeta.
  assert (ontology_files !! "b.obo" = Some source_B) as HB by (vm_compute; reflexivity).
  split; [exact HB|].
  destruct (C5_reload_merges ontology_files "a.obo" "b.obo" source_B
              CvTermCache.default HB) as (Hm & Hn & _).
  split; [exact Hm | exact Hn].
Defined.

(** C6, as the claim states it, fails: two markers, each followed by a
    non-empty [id:] line, but with the same accession, give the count 1. *)
Lemma C6_same_accession_counted_once :
  CvTermCache.getlines source_dup
    = lines_of [] [["id: MS:1000002"; "name: first"]; ["id: MS:1000002"; "name: second"]] ∧
  block_accession ["id: MS:1000002"; "name: first"] = " MS:1000002" ∧
  block_accession ["id: MS:1000002"; "name: second"] = " MS:1000002" ∧
  (CvTermCache.loadFromOboFile "dup.obo" {[ "dup.obo" := source_dup ]}
     CvTermCache.default).1 = 1%Z.
Proof. repeat split; vm_compute; reflexivity. Qed.

Lemma C6_term_count_witness :
  (CvTermCache.loadFromOboFile "c.obo" {[ "c.obo" := source_C ]}
     CvTermCache.default).1 = 2%Z.
Proof.
  apply (C6_term_count {[ "c.obo" := source_C ]} "c.obo" source_C ["! an ontology"]
           [["id: MS:1000001"; "name: one"]; [""; ""]; ["id: MS:1000002"]]).
  - vm_compute. reflexivity.
  - vm_compute. reflexivity.
  - repeat constructor; discriminate.
  - repeat constructor; discriminate.
  - apply (bool_decide_unpack _). vm_compute. exact I.
Defined.

(** * Properties of the generated creation date *)

Section clock.
Import Clock Calendar.
#[local] Open Scope Z_scope.

Lemma civil_from_days_range (days : Z) :
  0 ≤ days < 2932897 →
  let '(y, m, d) := civil_from_days days in
  1970 ≤ y ≤ 9999 ∧ 1 ≤ m ≤ 12 ∧ 1 ≤ d ≤ 31.
Proof.
  intros H. unfold civil_from_days. cbv zeta.
  set (z := days + 719468).
  set (era := z / 146097).
  set (doe := z - era * 146097).
  set (yoe := (doe - doe / 1460 + doe / 36524 - doe / 146096) / 365).
  set (doy := doe - (365 * yoe + yoe / 4 - yoe / 100)).
  set (mp := (5 * doy + 2) / 153).
  assert (0 ≤ doe ≤ 146096) as Hdoe by (subst doe era; Z.div_mod_to_equations; lia).
  assert (4 ≤ era ≤ 24) as Hera by (subst era z; Z.div_mod_to_equations; lia).
  assert (era = 24 → doe ≤ 146036) as Hlast
    by (subst doe era z; Z.div_mod_to_equations; lia).
  assert (era = 4 → 135080 ≤ doe) as Hfirst
    by (subst doe era z; Z.div_mod_to_equations; lia).
  clearbody doe era. clear z H.
  assert (0 ≤ yoe ≤ 399 ∧ 0 ≤ doy ≤ 365) as [Hyoe Hdoy]
    by (subst doy yoe; Z.div_mod_to_equations; lia).
  assert (yoe = 399 → 306 ≤ doy → 146037 ≤ doe) as Hy1
    by (subst doy yoe; Z.div_mod_to_equations; lia).
  assert (135080 ≤ doe → 369 ≤ yoe ∧ (yoe = 369 → 306 ≤ doy)) as Hy0
    by (subst doy yoe; Z.div_mod_to_equations; lia).
  clearbody doy yoe.
  assert (0 ≤ mp ≤ 11) as Hmp by (subst mp; Z.div_mod_to_equations; lia).
  assert (1 ≤ doy - (153 * mp + 2) / 5 + 1 ≤ 31) as Hd
    by (subst mp; Z.div_mod_to_equations; lia).
  assert (mp < 10 ↔ doy < 306) as Hmpd by (subst mp; Z.div_mod_to_equations; lia).
  clearbody mp.
  destruct (Z.ltb_spec mp 10); destruct (Z.leb_spec0 (mp + 3) 2);
    destruct (Z.leb_spec0 (mp - 9) 2); lia.
Qed.

(** The fields of the broken-down time of a clock reading between the
    epoch and the end of the year 9999. *)
Lemma gmtime_range (t : Z) :
  0 ≤ t < 253402300800 →
  0 ≤ tm_sec (gmtime t) ≤ 59 ∧ 0 ≤ tm_min (gmtime t) ≤ 59 ∧
  0 ≤ tm_hour (gmtime t) ≤ 23 ∧ 1 ≤ tm_mday (gmtime t) ≤ 31 ∧
  0 ≤ tm_mon (gmtime t) ≤ 11 ∧ 70 ≤ tm_year (gmtime t) ≤ 8099.
Proof.
  intros Ht. unfold gmtime.
  assert (0 ≤ t / 86400 < 2932897) as Hdays by (Z.div_mod_to_equations; lia).
  pose proof (civil_from_days_range _ Hdays) as Hciv.
  destruct (civil_from_days (t / 86400)) as [[y m] d]. cbn.
  repeat split; try lia; Z.div_mod_to_equations; lia.
Qed.

Lemma digit_code (k : Z) :
  0 ≤ k ≤ 9 → Z.of_nat (nat_of_ascii (digit k)) = 48 + k.
Proof.
  intros Hk.
  assert (k = 0 ∨ k = 1 ∨ k = 2 ∨ k = 3 ∨ k = 4 ∨ k = 5 ∨ k = 6 ∨ k = 7 ∨
          k = 8 ∨ k = 9) as Hcases by lia.
  repeat (destruct Hcases as [->|Hcases]; [reflexivity|]). by subst.
Qed.

Lemma digit_is_digit (k : Z) : 0 ≤ k ≤ 9 → is_digit (digit k) = true.
Proof. intros Hk. unfold is_digit. rewrite digit_code by done. lia. Qed.

Lemma num2_digit (a b : Z) :
  0 ≤ a ≤ 9 → 0 ≤ b ≤ 9 → num2 (digit a) (digit b) = 10 * a + b.
Proof. intros Ha Hb. unfold num2. rewrite !digit_code by done. lia. Qed.

Lemma between_dec2 (lo hi n : Z) :
  0 ≤ n ≤ 99 → lo ≤ n ≤ hi →
  between lo hi (num2 (digit (n / 10)) (digit (n mod 10))) = true.
Proof.
  intros Hn Hr. rewrite num2_digit by (Z.div_mod_to_equations; lia).
  unfold between. Z.div_mod_to_equations; lia.
Qed.

Lemma decimal_4 (y : Z) :
  1000 ≤ y ≤ 9999 →
  decimal y = String (digit (y / 1000)) (String (digit (y / 100 mod 10))
                (String (digit (y / 10 mod 10)) (String (digit (y mod 10)) ""))).
Proof.
  intros Hy. unfold decimal.
  destruct (Z.ltb_spec y 0) as [|_]; [lia|].
  cbn [decimal_go].
  destruct (Z.eqb_spec (y / 10) 0) as [|_]; [Z.div_mod_to_equations; lia|].
  destruct (Z.eqb_spec (y / 10 / 10) 0) as [|_]; [Z.div_mod_to_equations; lia|].
  destruct (Z.eqb_spec (y / 10 / 10 / 10) 0) as [|_]; [Z.div_mod_to_equations; lia|].
  destruct (Z.eqb_spec (y / 10 / 10 / 10 / 10) 0) as [_|]; [|Z.div_mod_to_equations; lia].
  replace (y / 10 / 10 / 10 mod 10) with (y / 1000) by (Z.div_mod_to_equations; lia).
  replace (y / 10 / 10 mod 10) with (y / 100 mod 10) by (Z.div_mod_to_equations; lia).
  reflexivity.
Qed.

(** The pattern of the source prints a broken-down time with a four-digit
    year as a well-formed timestamp. *)
Lemma put_time_well_formed (b : tm) :
  0 ≤ tm_sec b ≤ 60 → 0 ≤ tm_min b ≤ 59 → 0 ≤ tm_hour b ≤ 23 →
  1 ≤ tm_mday b ≤ 31 → 0 ≤ tm_mon b ≤ 11 → 1000 ≤ tm_year b + 1900 ≤ 9999 →
  is_iso8601_utc (put_time b) = true.
Proof.
  intros Hs Hn Hh Hd Hm Hy. unfold put_time. rewrite decimal_4 by done.
  unfold dec2, is_iso8601_utc.
  cbv [String.append String.list_ascii_of_string forallb].
  rewrite !digit_is_digit by (Z.div_mod_to_equations; lia).
  rewrite !between_dec2 by lia.
  reflexivity.
Qed.

Lemma getCurrentIsoTime_well_formed (now : Z) :
  0 ≤ now < 253402300800 →
  is_iso8601_utc (MzQCFile.getCurrentIsoTime now) = true.
Proof.
  intros Hnow. destruct (gmtime_range now Hnow) as (? & ? & ? & ? & ? & ?).
  apply put_time_well_formed; lia.
Qed.

Lemma total_app (l k : list Z) : total (l ++ k) = total l + total k.
Proof. induction l as [|x l IH]; cbn; [done|]. unfold total in *. cbn. lia. Qed.

Lemma days_in_year_step (y : Z) :
  y / 4 - y / 100 + y / 400 - ((y - 1) / 4 - (y - 1) / 100 + (y - 1) / 400)
    = if is_leap y then 1 else 0.
Proof.
  unfold is_leap.
  destruct (Z.eqb_spec (y mod 4) 0), (Z.eqb_spec (y mod 100) 0),
    (Z.eqb_spec (y mod 400) 0); cbn; Z.div_mod_to_equations; lia.
Qed.

(** The days before a year in closed form: 365 a year and one more for
    every leap year passed. *)
Lemma days_before_year_closed (y : Z) :
  1970 ≤ y →
  days_before_year y
    = 365 * (y - 1970) + ((y - 1) / 4 - (y - 1) / 100 + (y - 1) / 400) - 477.
Proof.
  intros Hy. unfold days_before_year.
  replace y with (1970 + Z.of_nat (Z.to_nat (y - 1970))) by lia.
  generalize (Z.to_nat (y - 1970)) as n. clear. intros n.
  replace (1970 + Z.of_nat n - 1970) with (Z.of_nat n) by lia.
  induction n as [|n IH]; [reflexivity|].
  rewrite seqZ_S, fmap_app, total_app, IH. cbn [fmap list_fmap total foldr].
  unfold days_in_year.
  pose proof (days_in_year_step (1970 + Z.of_nat n)) as Hstep.
  replace (1970 + Z.of_nat (S n) - 1) with (1970 + Z.of_nat n) by lia.
  destruct (is_leap (1970 + Z.of_nat n)); lia.
Qed.

(** The lengths of the months in the count of [civil_from_days], whose
    year starts with March: month [mp] of that count is month [mp + 3], or
    [mp - 9] of the next year. *)
Lemma month_table (leap : bool) (mp : Z) :
  0 ≤ mp ≤ 11 →
  let m := if mp <? 10 then mp + 3 else mp - 9 in
  total (month_length leap <$> seqZ 1 (m - 1))
    = (if mp <? 10 then (153 * mp + 2) / 5 + 59 + (if leap then 1 else 0)
       else (153 * mp + 2) / 5 - 306) ∧
  month_length leap m
    = (if mp =? 11 then (if leap then 29 else 28)
       else (153 * (mp + 1) + 2) / 5 - (153 * mp + 2) / 5).
Proof.
  intros Hmp.
  assert (mp = 0 ∨ mp = 1 ∨ mp = 2 ∨ mp = 3 ∨ mp = 4 ∨ mp = 5 ∨ mp = 6 ∨ mp = 7 ∨
          mp = 8 ∨ mp = 9 ∨ mp = 10 ∨ mp = 11) as Hcases by lia.
  destruct leap;
    repeat (destruct Hcases as [->|Hcases]; [split; vm_compute; reflexivity|]);
    subst; split; vm_compute; reflexivity.
Qed.

Lemma is_leap_true (y : Z) :
  is_leap y = true ↔ y mod 4 = 0 ∧ (y mod 100 ≠ 0 ∨ y mod 400 = 0).
Proof.
  unfold is_leap.
  destruct (Z.eqb_spec (y mod 4) 0), (Z.eqb_spec (y mod 100) 0),
    (Z.eqb_spec (y mod 400) 0); cbn; intuition congruence.
Qed.

(** [civil_from_days] gives the date of the calendar that lies the given
    number of days after 1970-01-01. *)
Lemma civil_from_days_denotes (days : Z) :
  0 ≤ days < 2932897 →
  let '(y, m, d) := civil_from_days days in
  1970 ≤ y ≤ 9999 ∧ 1 ≤ m ≤ 12 ∧ 1 ≤ d ≤ days_in_month y m ∧
  days_before_year y + days_before_month y m + (d - 1) = days.
Proof.
  intros H.
  pose proof (civil_from_days_range days H) as Hrange.
  unfold civil_from_days in *. cbv zeta in *.
  set (z := days + 719468) in *.
  set (era := z / 146097) in *.
  set (doe := z - era * 146097) in *.
  set (yoe := (doe - doe / 1460 + doe / 36524 - doe / 146096) / 365) in *.
  set (doy := doe - (365 * yoe + yoe / 4 - yoe / 100)) in *.
  set (mp := (5 * doy + 2) / 153) in *.
  assert (0 ≤ doe ≤ 146096) as Hdoe by (subst doe era; Z.div_mod_to_equations; lia).
  assert (days = era * 146097 + doe - 719468) as Hdays by (subst doe z; lia).
  assert (0 ≤ era) as Hera by (subst era z; Z.div_mod_to_equations; lia).
  clearbody doe era. clear z H.
  assert (0 ≤ yoe ≤ 399 ∧ 0 ≤ doy ≤ 365) as [Hyoe Hdoy]
    by (subst doy yoe; Z.div_mod_to_equations; lia).
  assert (doy = 365 → (yoe + 1) mod 4 = 0 ∧ ((yoe + 1) mod 100 ≠ 0 ∨ yoe = 399))
    as Hleap by (subst doy yoe; Z.div_mod_to_equations; lia).
  assert (doe = 365 * yoe + yoe / 4 - yoe / 100 + doy) as Hdoe' by (subst doy; lia).
  clearbody doy yoe. subst doe. clear Hdoe.
  assert (0 ≤ mp ≤ 11) as Hmp by (subst mp; Z.div_mod_to_equations; lia).
  assert ((153 * mp + 2) / 5 ≤ doy < (153 * (mp + 1) + 2) / 5) as Hmonth
    by (subst mp; Z.div_mod_to_equations; lia).
  assert (mp = 11 → 337 ≤ doy) as Hfeb by (subst mp; Z.div_mod_to_equations; lia).
  clearbody mp.
  destruct (month_table (is_leap (if (if mp <? 10 then mp + 3 else mp - 9) <=? 2
                                  then yoe + era * 400 + 1 else yoe + era * 400))
              mp Hmp) as [Hbefore Hlength].
  cbv zeta in *.
  set (m := if mp <? 10 then mp + 3 else mp - 9) in *.
  assert ((m <=? 2) = negb (mp <? 10)) as Hm2
    by (subst m; destruct (Z.ltb_spec mp 10); cbn; lia).
  rewrite Hm2 in *.
  set (y := if negb (mp <? 10) then yoe + era * 400 + 1 else yoe + era * 400) in *.
  destruct Hrange as (Hy & Hm & Hd).
  split; [done|]. split; [done|].
  rewrite days_before_year_closed by lia.
  unfold days_before_month, days_in_month. rewrite Hbefore, Hlength.
  pose proof (days_in_year_step y) as Hstep.
  pose proof (is_leap_true y) as Hl.
  clear Hbefore Hlength Hm2 Hm Hd. clearbody m.
  subst y. destruct (Z.ltb_spec mp 10) as [Hlt|Hge]; cbn [negb] in *.
  - destruct (Z.eqb_spec mp 11) as [|_]; [lia|].
    destruct (is_leap (yoe + era * 400)); Z.div_mod_to_equations; lia.
  - destruct (Z.eqb_spec mp 11) as [->|Hne].
    + destruct (is_leap (yoe + era * 400 + 1)) eqn:Hlp.
      * Z.div_mod_to_equations; lia.
      * assert (doy ≠ 365) as Hno.
        { intros Hd365. destruct (Hleap Hd365) as [H4 H100].
          enough (false = true) by done. apply Hl. clear Hl Hlp Hstep.
          Z.div_mod_to_equations; lia. }
        clear Hl Hleap. Z.div_mod_to_equations; lia.
    + assert (mp = 10) as -> by lia.
      destruct (is_leap (yoe + era * 400 + 1)); Z.div_mod_to_equations; lia.
Qed.

(** The broken-down time of a clock reading is a date of the calendar and
    a time of day, and lies that many seconds after the epoch. *)
Lemma gmtime_denotes (t : Z) :
  0 ≤ t < 253402300800 →
  let b := gmtime t in
  valid (tm_year b + 1900) (tm_mon b + 1) (tm_mday b)
    (tm_hour b) (tm_min b) (tm_sec b) = true ∧
  seconds_since_epoch (tm_year b + 1900) (tm_mon b + 1) (tm_mday b)
    (tm_hour b) (tm_min b) (tm_sec b) = t.
Proof.
  intros Ht. cbv zeta. unfold gmtime.
  assert (0 ≤ t / 86400 < 2932897) as Hdays by (Z.div_mod_to_equations; lia).
  pose proof (civil_from_days_denotes _ Hdays) as Hciv.
  destruct (civil_from_days (t / 86400)) as [[y m] d].
  destruct Hciv as (Hy & Hm & Hd & Hsum).
  cbn [tm_year tm_mon tm_mday tm_hour tm_min tm_sec].
  replace (y - 1900 + 1900) with y by lia. replace (m - 1 + 1) with m by lia.
  split.
  - unfold valid, between.
    generalize dependent (days_in_month y m). intros dim Hd.
    clear Hsum. Z.div_mod_to_equations; lia.
  - unfold seconds_since_epoch. rewrite Hsum. clear. Z.div_mod_to_equations; lia.
Qed.

Lemma num4_digit (y : Z) :
  1000 ≤ y ≤ 9999 →
  num4 (digit (y / 1000)) (digit (y / 100 mod 10))
       (digit (y / 10 mod 10)) (digit (y mod 10)) = y.
Proof.
  intros Hy. unfold num4.
  rewrite !num2_digit by (Z.div_mod_to_equations; lia).
  Z.div_mod_to_equations; lia.
Qed.

Lemma num2_dec2 (n : Z) :
  0 ≤ n ≤ 99 → num2 (digit (n / 10)) (digit (n mod 10)) = n.
Proof.
  intros Hn. rewrite num2_digit by (Z.div_mod_to_equations; lia).
  Z.div_mod_to_equations; lia.
Qed.

(** Reading back what [put_time] printed gives the fields that were
    printed. *)
Lemma denoted_put_time (b : tm) :
  0 ≤ tm_sec b ≤ 59 → 0 ≤ tm_min b ≤ 59 → 0 ≤ tm_hour b ≤ 23 →
  1 ≤ tm_mday b ≤ 31 → 0 ≤ tm_mon b ≤ 11 → 1000 ≤ tm_year b + 1900 ≤ 9999 →
  denoted_time (put_time b)
    = if valid (tm_year b + 1900) (tm_mon b + 1) (tm_mday b)
           (tm_hour b) (tm_min b) (tm_sec b)
      then Some (seconds_since_epoch (tm_year b + 1900) (tm_mon b + 1) (tm_mday b)
                   (tm_hour b) (tm_min b) (tm_sec b))
      else None.
Proof.
  intros Hs Hn Hh Hd Hm Hy. unfold denoted_time.
  rewrite put_time_well_formed by lia.
  unfold put_time. rewrite decimal_4 by done. unfold dec2.
  cbv [String.append String.list_ascii_of_string].
  rewrite num4_digit by done. rewrite !num2_dec2 by lia. reflexivity.
Qed.

(** The timestamp of a clock reading denotes that reading. *)
Lemma getCurrentIsoTime_denotes (now : Z) :
  0 ≤ now < 253402300800 →
  denoted_time (MzQCFile.getCurrentIsoTime now) = Some now.
Proof.
  intros Hnow. unfold MzQCFile.getCurrentIsoTime.
  destruct (gmtime_range now Hnow) as (? & ? & ? & ? & ? & ?).
  destruct (gmtime_denotes now Hnow) as [Hvalid Hsec].
  rewrite denoted_put_time by lia. by rewrite Hvalid, Hsec.
Qed.

End clock.

Example timestamps :
  MzQCFile.getCurrentIsoTime 1793318400 = "2026-10-30T00:00:00Z" ∧
  Calendar.denoted_time "2024-02-29T12:34:56Z" = Some 1709210096%Z ∧
  Calendar.denoted_time "2023-02-29T12:34:56Z" = None.
Proof. repeat split; vm_compute; reflexivity. Qed.




(** * Further properties of the codec *)

(** X1.  A controlled vocabulary, a CV parameter, an analysis software, a
    run quality and a set quality are decoded from their encoding into any
    receiver, whatever it held before: these decoders assign every field. *)
Theorem X1_entities_decode_into_any_receiver
    (c c0 : ControlledVocabulary.t) (p p0 : CvParameter.t)
    (s s0 : AnalysisSoftware.t) (r r0 : RunQuality.t) (q q0 : SetQuality.t) :
  ControlledVocabulary.fromJson (ControlledVocabulary.toJson c) c0 = Ok c ∧
  CvParameter.fromJson (CvParameter.toJson p) p0 = Ok p ∧
  AnalysisSoftware.fromJson (AnalysisSoftware.toJson s) s0 = Ok s ∧
  RunQuality.fromJson (RunQuality.toJson r) r0 = Ok r ∧
  SetQuality.fromJson (SetQuality.toJson q) q0 = Ok q.
Proof.
  repeat split.
  - apply ControlledVocabulary_round_trip.
  - apply CvParameter_round_trip.
  - apply AnalysisSoftware_round_trip.
  - apply RunQuality_round_trip.
  - apply SetQuality_round_trip.
Qed.

(** X2.  Decoding an encoded quality metric into a receiver gives the metric
    back except for a null payload: the encoder omits it, and the decoder
    then leaves the payload that the receiver held. *)
Theorem X2_metric_decode_keeps_prior_payload (m self : QualityMetric.t) :
  QualityMetric.fromJson (QualityMetric.toJson m) self =
    Ok {| QualityMetric.accession := QualityMetric.accession m;
          QualityMetric.name := QualityMetric.name m;
          QualityMetric.description := QualityMetric.description m;
          QualityMetric.value :=
            if Json.is_null (QualityMetric.value m) then QualityMetric.value self
            else QualityMetric.value m;
          QualityMetric.unit := QualityMetric.unit m |}.
Proof. destruct m as [a n d v u]. by destruct d, v, u. Qed.

(** X3.  Decoding an encoded input file into a receiver gives the file back
    except for a null file format and an empty list of file properties:
    both are omitted by the encoder, and the decoder then leaves what the
    receiver held. *)
Theorem X3_input_file_decode_keeps_prior (f self : InputFile.t) :
  InputFile.fromJson (InputFile.toJson f) self =
    Ok {| InputFile.location := InputFile.location f;
          InputFile.name := InputFile.name f;
          InputFile.fileFormat :=
            match InputFile.fileFormat f with
            | Some ff => Some ff
            | None => InputFile.fileFormat self
            end;
          InputFile.fileProperties :=
            if vempty (InputFile.fileProperties f) then InputFile.fileProperties self
            else InputFile.fileProperties f |}.
Proof.
  destruct (InputFile_fields f) as (Hl & Hn & Hff & Hps).
  unfold InputFile.fromJson.
  rewrite !value_of_get by apply InputFile_is_object.
  rewrite Hl, Hn, Hff, Hps. clear. destruct f as [l n ff ps]. cbn.
  destruct ff as [ff|]; cbn;
    [rewrite CvParameter_round_trip; cbn|];
    (destruct ps as [|p ps]; [done|]); cbn [vempty];
    by rewrite (decode_all CvParameter.fromJson CvParameter.toJson)
      by (intros; apply CvParameter_round_trip).
Qed.

(** X4.  The document encoder loses nothing: two documents with the same
    encoding are the same document. *)
Theorem X4_toJson_injective (d1 d2 : MzQCFile.t) :
  MzQCFile.toJson d1 = MzQCFile.toJson d2 → d1 = d2.
Proof.
  intros Heq.
  pose proof (MzQCFile_round_trip 0 d1 (MzQCFile.default 0) eq_refl eq_refl eq_refl) as H1.
  pose proof (MzQCFile_round_trip 0 d2 (MzQCFile.default 0) eq_refl eq_refl eq_refl) as H2.
  rewrite Heq in H1. congruence.
Qed.

Lemma X4_toJson_injective_witness :
  MzQCFile.make 0 "2024-01-01T00:00:00Z" "1.0.0" "" "" "" [] [] = bare_document.
Proof. apply X4_toJson_injective. vm_compute. reflexivity. Defined.

(** X5.  Decoding a wire value whose root is no object (an array, a string,
    a number, null) throws the type error 306 of [value()]. *)
Theorem X5_decode_non_object (now : Z) (j : json) (self : MzQCFile.t) :
  Json.is_object (MzQCFile.root j) = false →
  MzQCFile.fromJson now j self = Throw (type_error 306).
Proof.
  intros Hobj. unfold MzQCFile.fromJson.
  destruct (MzQCFile.root j); try done.
Qed.

Lemma X5_decode_non_object_witness :
  MzQCFile.fromJson 0 (JArray [JObject ∅]) prior_document = Throw (type_error 306).
Proof. apply X5_decode_non_object. reflexivity. Defined.

Lemma get_string_Throw (v : json) :
  is_string v = false → Json.get_string v = Throw (type_error 302).
Proof. by destruct v. Qed.

Lemma value_cases (m : gmap string json) (key : string) :
  (∃ s, Json.value (JObject m) key "" = Ok s) ∨
  Json.value (JObject m) key "" = Throw (type_error 302).
Proof.
  unfold Json.value. destruct (m !! key) as [v|]; [|by left; eexists].
  destruct v; cbn; eauto.
Qed.

Lemma value_Throw (m : gmap string json) (key : string) (v : json) :
  m !! key = Some v → is_string v = false →
  Json.value (JObject m) key "" = Throw (type_error 302).
Proof. intros Hk Hv. unfold Json.value. rewrite Hk. by apply get_string_Throw. Qed.

(** X6.  When the root object holds, under one of the five string keys, a
    value that is no string, decoding throws the type error 302, whatever
    the rest of the document is. *)
Theorem X6_decode_mistyped_string (now : Z) (j : json) (self : MzQCFile.t)
    (m : gmap string json) (key : string) (v : json) :
  MzQCFile.root j = JObject m →
  key ∈ string_keys → m !! key = Some v → is_string v = false →
  MzQCFile.fromJson now j self = Throw (type_error 302).
Proof.
  intros Hroot Hkey Hk Hv. unfold MzQCFile.fromJson. rewrite Hroot.
  assert (match Json.get (JObject m) "creationDate" with
          | Some v => Json.get_string v
          | None => Ok (MzQCFile.getCurrentIsoTime now)
          end = Throw (type_error 302) ∨
          ∃ s, match Json.get (JObject m) "creationDate" with
               | Some v => Json.get_string v
               | None => Ok (MzQCFile.getCurrentIsoTime now)
               end = Ok s) as Hcd.
  { cbn. destruct (m !! "creationDate") as [[]|]; cbn; eauto. }
  unfold string_keys in Hkey.
  repeat (apply elem_of_cons in Hkey as [->|Hkey]);
    [| | | | |by apply elem_of_nil in Hkey].
  - cbn. rewrite Hk. by rewrite get_string_Throw.
  - destruct Hcd as [->|[s ->]]; [done|]. cbn [mbind result_bind].
    by rewrite (value_Throw m "version" v).
  - destruct Hcd as [->|[s ->]]; [done|]. cbn [mbind result_bind].
    destruct (value_cases m "version") as [[? ->]| ->]; [|done]. cbn [mbind result_bind].
    by rewrite (value_Throw m "contactName" v).
  - destruct Hcd as [->|[s ->]]; [done|]. cbn [mbind result_bind].
    destruct (value_cases m "version") as [[? ->]| ->]; [|done]. cbn [mbind result_bind].
    destruct (value_cases m "contactName") as [[? ->]| ->]; [|done]. cbn [mbind result_bind].
    by rewrite (value_Throw m "contactAddress" v).
  - destruct Hcd as [->|[s ->]]; [done|]. cbn [mbind result_bind].
    destruct (value_cases m "version") as [[? ->]| ->]; [|done]. cbn [mbind result_bind].
    destruct (value_cases m "contactName") as [[? ->]| ->]; [|done]. cbn [mbind result_bind].
    destruct (value_cases m "contactAddress") as [[? ->]| ->]; [|done]. cbn [mbind result_bind].
    by rewrite (value_Throw m "description" v).
Qed.

Lemma X6_decode_mistyped_string_witness :
  MzQCFile.fromJson 0 (wrap (JObject mistyped_version)) prior_document
    = Throw (type_error 302).
Proof.
  apply (X6_decode_mistyped_string 0 _ _ mistyped_version "version" (JInteger 1)).
  - reflexivity.
  - apply (bool_decide_unpack _). vm_compute. exact I.
  - vm_compute. reflexivity.
  - reflexivity.
Defined.

Lemma mapM_Ok_Forall2 {A B} (f : A → result B) (l : list A) (k : list B) :
  mapM f l = Ok k → Forall2 (λ x y, f x = Ok y) l k.
Proof.
  revert k. induction l as [|x l IH]; intros k Hk.
  - injection Hk as <-. constructor.
  - cbn in Hk. apply bind_Ok in Hk as (y & Hy & Hk).
    apply bind_Ok in Hk as (k' & Hk' & Hk). injection Hk as <-.
    constructor; [done|by apply IH].
Qed.

Lemma mapM_Ok_Forall {A B} (f : A → result B) (P : A → Prop) (l : list A) (k : list B) :
  mapM f l = Ok k → (∀ x y, f x = Ok y → P x) → length k = length l ∧ Forall P l.
Proof.
  intros Hk HP. apply mapM_Ok_Forall2 in Hk.
  induction Hk as [|x y l k Hxy _ [IHlen IH]]; [done|].
  split; [cbn; by f_equal|]. constructor; [by eapply HP|done].
Qed.

(** X7.  When decoding completes, each of the three lists whose key holds
    an array has exactly one entity per element of the array, and every
    element of that array is an object: an element of another kind makes the
    whole decoding throw. *)
Theorem X7_decode_one_entity_per_element (now : Z) (j : json) (self d : MzQCFile.t) :
  MzQCFile.fromJson now j self = Ok d →
  (∀ vs, Json.get (MzQCFile.root j) "controlledVocabularies" = Some (JArray vs) →
     length (MzQCFile.controlledVocabularies d) = length vs ∧
     Forall (λ v, Json.is_object v = true) vs) ∧
  (∀ vs, Json.get (MzQCFile.root j) "runQualities" = Some (JArray vs) →
     length (MzQCFile.runQualities d) = length vs ∧
     Forall (λ v, Json.is_object v = true) vs) ∧
  (∀ vs, Json.get (MzQCFile.root j) "setQualities" = Some (JArray vs) →
     length (MzQCFile.setQualities d) = length vs ∧
     Forall (λ v, Json.is_object v = true) vs).
Proof.
  intros H. unfold MzQCFile.fromJson in H. invert_decode H. cbn.
  split; [|split]; intros vs Hvs; rewrite Hvs in *.
  - eapply mapM_Ok_Forall; [eassumption|].
    intros v y Hv. by destruct v.
  - eapply mapM_Ok_Forall; [eassumption|].
    intros v y Hv. by destruct v.
  - eapply mapM_Ok_Forall; [eassumption|].
    intros v y Hv. by destruct v.
Qed.

Lemma X7_decode_one_entity_per_element_witness :
  length (MzQCFile.runQualities sample_document)
    = length (RunQuality.toJson <$> MzQCFile.runQualities sample_document) ∧
  Forall (λ v, Json.is_object v = true)
    (RunQuality.toJson <$> MzQCFile.runQualities sample_document).
Proof.
  refine (proj1 (proj2 (X7_decode_one_entity_per_element 0
                          (MzQCFile.toJson sample_document) (MzQCFile.default 0)
                          sample_document _)) _ _).
  - reflexivity.
  - reflexivity.
Defined.

(** X8.  A key that the decoder does not know is ignored: putting it into
    the root object of a wrapped document, or into an unwrapped document
    when the key is not [mzQC], does not change what decoding gives. *)
Theorem X8_decode_ignores_unknown_keys (now : Z) (m : gmap string json)
    (key : string) (v : json) (self : MzQCFile.t) :
  key ∉ known_keys →
  MzQCFile.fromJson now (wrap (JObject (<[key := v]> m))) self
    = MzQCFile.fromJson now (wrap (JObject m)) self ∧
  (key ≠ "mzQC" →
   MzQCFile.fromJson now (JObject (<[key := v]> m)) self
     = MzQCFile.fromJson now (JObject m) self).
Proof.
  intros Hkey. unfold known_keys, string_keys, list_keys in Hkey. cbn in Hkey.
  repeat (apply not_elem_of_cons in Hkey as [? Hkey]).
  assert (∀ m', MzQCFile.fromJson now (wrap (JObject (<[key := v]> m'))) self
                = MzQCFile.fromJson now (wrap (JObject m')) self) as Hin.
  { intros m'. unfold MzQCFile.fromJson.
    replace (MzQCFile.root (wrap (JObject (<[key:=v]> m')))) with (JObject (<[key:=v]> m'))
      by reflexivity.
    replace (MzQCFile.root (wrap (JObject m'))) with (JObject m') by reflexivity.
    unfold Json.value, Json.get. by rewrite !lookup_insert_ne by done. }
  split; [apply Hin|]. intros Hroot.
  unfold MzQCFile.fromJson, MzQCFile.root. cbn [Json.get].
  rewrite lookup_insert_ne by done.
  destruct (m !! "mzQC") as [inner|]; [done|].
  unfold Json.value, Json.get. by rewrite !lookup_insert_ne by done.
Qed.

Lemma X8_decode_ignores_unknown_keys_witness :
  MzQCFile.fromJson 0 (wrap (JObject (<["comment" := JString "n/a"]> mistyped_version)))
    prior_document
  = MzQCFile.fromJson 0 (wrap (JObject mistyped_version)) prior_document.
Proof.
  apply (X8_decode_ignores_unknown_keys 0 mistyped_version "comment").
  apply (bool_decide_unpack _). vm_compute. exact I.
Defined.

Lemma elem_of_optional (c : bool) (key k : string) (v w : json) :
  (k, w) ∈ optional c key v → k = key.
Proof.
  unfold optional. destruct c; [|by intros ?%elem_of_nil].
  intros [= -> _]%list_elem_of_singleton. done.
Qed.

(** X9.  The encoded document is the single key [mzQC] over an object of
    exactly the pairs the encoder assigns: no key beside [mzQC] at the top,
    and under it no key other than the eight of the document. *)
Theorem X9_encoded_keys (d : MzQCFile.t) :
  MzQCFile.toJson d = Json.object_of [("mzQC", Json.object_of (root_pairs d))] ∧
  (∀ key, Json.contains (MzQCFile.toJson d) key = true → key = "mzQC") ∧
  (∀ key, Json.contains (MzQCFile.root (MzQCFile.toJson d)) key = true →
          key ∈ known_keys).
Proof.
  assert (MzQCFile.toJson d = Json.object_of [("mzQC", Json.object_of (root_pairs d))])
    as Hshape.
  { destruct d as [cd v cn ca ds cvs rqs sqs]. unfold root_pairs. cbn.
    destruct cn, ca, ds, cvs, rqs, sqs; reflexivity. }
  split; [done|]. rewrite Hshape. split.
  - intros key. unfold Json.contains. cbn.
    destruct (decide (key = "mzQC")) as [->|Hne]; [done|].
    by rewrite lookup_insert_ne.
  - intros key. unfold Json.contains.
    replace (MzQCFile.root (Json.object_of [("mzQC", Json.object_of (root_pairs d))]))
      with (Json.object_of (root_pairs d)) by reflexivity.
    unfold Json.object_of, Json.get.
    destruct (list_to_map (root_pairs d) !! key) as [v|] eqn:Hk; [|done].
    intros _. apply elem_of_list_to_map_2 in Hk.
    unfold root_pairs in Hk.
    repeat (apply elem_of_app in Hk as [Hk|Hk]);
      try (apply elem_of_optional in Hk as ->; by apply (bool_decide_unpack _)).
    apply elem_of_cons in Hk as [[= -> _]|Hk]; [by apply (bool_decide_unpack _)|].
    apply list_elem_of_singleton in Hk as [= -> _]. by apply (bool_decide_unpack _).
Qed.

(** * Further properties of the validator and of the file boundary *)

Section boundary.
Variable parse : string → string + json.
Variable dump : nat → json → option string.
Variable writable : string → bool.

Lemma loadSchema_Ok (schemaPath : string) (w w' : World) (s : json) :
  loadSchema parse schemaPath w = (Ok s, w') →
  schemaLoaded w' = true ∧ cachedSchema w' = s ∧ files w' = files w ∧ cerr w' = cerr w.
Proof.
  unfold loadSchema. destruct (schemaLoaded w) eqn:Hl.
  - intros [= <- <-]. done.
  - destruct (files w !! schemaPath) as [text|]; [|done].
    destruct (parse text); [done|]. intros [= <- <-]. done.
Qed.

Lemma validateAgainstSchema_flag (j : json) (schemaPath : string) (w w' : World) (s : json) :
  loadSchema parse schemaPath w = (Ok s, w') →
  (validateAgainstSchema parse j schemaPath w).1 = complete j.
Proof.
  intros Hload. unfold validateAgainstSchema, complete. rewrite Hload.
  destruct (Json.get j "mzQC") as [mzqc|]; [|done].
  destruct (Json.contains mzqc "version"), (Json.contains mzqc "creationDate"),
    (Json.contains mzqc "runQualities"), (Json.contains mzqc "setQualities"),
    (Json.contains mzqc "controlledVocabularies"); reflexivity.
Qed.

Lemma validateAgainstSchema_incomplete (j : json) (schemaPath : string) (w : World) :
  complete j = false → (validateAgainstSchema parse j schemaPath w).1 = false.
Proof.
  intros Hc. unfold validateAgainstSchema, complete in *.
  destruct (loadSchema parse schemaPath w) as [[s|e] w']; [|reflexivity].
  destruct (Json.get j "mzQC") as [mzqc|]; [|reflexivity].
  destruct (Json.contains mzqc "version"), (Json.contains mzqc "creationDate"),
    (Json.contains mzqc "runQualities"), (Json.contains mzqc "setQualities"),
    (Json.contains mzqc "controlledVocabularies"); done.
Qed.

Lemma complete_encoded (d : MzQCFile.t) :
  complete (MzQCFile.toJson d) =
    negb (vempty (MzQCFile.controlledVocabularies d))
    && (negb (vempty (MzQCFile.runQualities d))
        || negb (vempty (MzQCFile.setQualities d))).
Proof.
  unfold complete.
  destruct (MzQCFile_root d) as [Hroot _].
  destruct (MzQCFile_fields d) as (Hv & Hcd & _ & _ & _ & Hcv & Hrq & Hsq).
  cbv zeta in *. rewrite Hroot at 1. cbn [Json.get]. rewrite lookup_singleton_eq.
  unfold Json.contains. rewrite Hv, Hcd, Hcv, Hrq, Hsq.
  by destruct (vempty _), (vempty _), (vempty _).
Qed.

(** X10.  The schema is loaded once: after a successful load, every later
    load returns that schema and leaves the world alone, whatever the path
    asked for, the files then present and the parser; so a later validation
    does not depend on its schema path either. *)
Theorem X10_schema_loaded_once (parse' : string → string + json)
    (p1 p2 : string) (w w1 w2 : World) (s : json) :
  loadSchema parse p1 w = (Ok s, w1) →
  schemaLoaded w2 = schemaLoaded w1 → cachedSchema w2 = cachedSchema w1 →
  loadSchema parse' p2 w2 = (Ok s, w2) ∧
  ∀ j, validateAgainstSchema parse' j p2 w2 = validateAgainstSchema parse j p1 w2.
Proof.
  intros Hload Hl Hc. apply loadSchema_Ok in Hload as (Hl1 & Hc1 & _).
  assert (∀ q p, loadSchema q p w2 = (Ok s, w2)) as Hany.
  { intros q p. unfold loadSchema. by rewrite Hl, Hl1, Hc, Hc1. }
  split; [apply Hany|]. intros j. unfold validateAgainstSchema. by rewrite !Hany.
Qed.

(** X11.  A failed schema load is not cached: no file changes, nothing is
    written to the error stream, the flag stays unset, the exception is a
    runtime error whose message starts with the words of [loadSchema], and
    the next load reads the file anew, succeeding once the file is there
    and parses. *)
Theorem X11_failed_schema_load_not_cached (p : string) (w w' : World) (e : exn) :
  loadSchema parse p w = (Throw e, w') →
  files w' = files w ∧ cerr w' = cerr w ∧ schemaLoaded w' = false ∧
  (∃ msg, e = runtime_error ("Error loading schema file: " +:+ msg)) ∧
  (∀ text s, parse text = inr s →
     loadSchema parse p (write_file p text w')
       = (Ok s, cache_schema s (write_file p text w'))).
Proof.
  unfold loadSchema. destruct (schemaLoaded w) eqn:Hl; [done|].
  intros Hload.
  assert (w' = w ∧ ∃ msg, e = runtime_error ("Error loading schema file: " +:+ msg))
    as [-> Hmsg].
  { destruct (files w !! p) as [text|].
    - destruct (parse text); [|done]. injection Hload as <- <-. eauto.
    - injection Hload as <- <-. eauto. }
  split; [done|]. split; [done|]. split; [done|]. split; [done|].
  intros text s Hs. cbn [schemaLoaded write_file files].
  rewrite Hl, lookup_insert_eq. by rewrite Hs.
Qed.

(** X12.  The contents of the schema are never consulted: whenever two
    schemas load, from any two files and by any two parsers, the verdicts on
    a wire document agree, and so do the reasons of a rejection. *)
Theorem X12_schema_contents_not_consulted (parse' : string → string + json)
    (j : json) (p p' : string) (w w1 w' w1' : World) (s s' : json) :
  loadSchema parse p w = (Ok s, w1) →
  loadSchema parse' p' w' = (Ok s', w1') →
  (validateAgainstSchema parse j p w).1 = (validateAgainstSchema parse' j p' w').1 ∧
  ((validateAgainstSchema parse j p w).1 = false →
   reason (validateAgainstSchema parse j p w)
     = reason (validateAgainstSchema parse' j p' w')).
Proof.
  intros H1 H2. split.
  - rewrite (validateAgainstSchema_flag j p w w1 s H1).
    unfold validateAgainstSchema, complete. rewrite H2.
    destruct (Json.get j "mzQC") as [mzqc|]; [|done].
    destruct (Json.contains mzqc "version"), (Json.contains mzqc "creationDate"),
      (Json.contains mzqc "runQualities"), (Json.contains mzqc "setQualities"),
      (Json.contains mzqc "controlledVocabularies"); reflexivity.
  - unfold validateAgainstSchema, reason. rewrite H1, H2.
    destruct (Json.get j "mzQC") as [mzqc|]; [|by cbn; rewrite !last_snoc].
    destruct (Json.contains mzqc "version"), (Json.contains mzqc "creationDate"),
      (Json.contains mzqc "runQualities"), (Json.contains mzqc "setQualities"),
      (Json.contains mzqc "controlledVocabularies"); cbn; try done;
      by rewrite !last_snoc.
Qed.

(** X13.  What saving does to the files.  No file but the target is ever
    touched.  When saving succeeds, the output stream opened, the printer
    gave a text, and the target holds that text, printed with indentation
    2.  When saving throws a runtime error (the validation or the opening
    failed), every file is as it was.  The only other exception is the type
    error 316 of the printer; it is thrown after the stream was opened, and
    the target is then left empty.  Without a schema path the error stream
    and the schema cache are untouched, and saving succeeds exactly when
    the stream opens and the printer gives a text. *)
Theorem X13_save_frame (d : MzQCFile.t) (filepath schemaPath : string) (w : World) :
  let r := toFile parse dump writable d filepath schemaPath w in
  (∀ p, p ≠ filepath → files r.2 !! p = files w !! p) ∧
  (r.1 = Ok () →
   writable filepath = true ∧
   ∃ text, dump 2 (MzQCFile.toJson d) = Some text ∧
           files r.2 = <[ filepath := text ]> (files w)) ∧
  (∀ msg, r.1 = Throw (runtime_error msg) → files r.2 = files w) ∧
  (∀ id, r.1 = Throw (type_error id) →
     id = 316%Z ∧ writable filepath = true ∧
     dump 2 (MzQCFile.toJson d) = None ∧
     files r.2 = <[ filepath := "" ]> (files w)) ∧
  (empty schemaPath = true →
   cerr r.2 = cerr w ∧ schemaLoaded r.2 = schemaLoaded w ∧
   cachedSchema r.2 = cachedSchema w ∧
   (r.1 = Ok () ↔
    writable filepath = true ∧ is_Some (dump 2 (MzQCFile.toJson d)))).
Proof.
  cbv zeta. unfold toFile.
  pose proof (validateAgainstSchema_files parse (MzQCFile.toJson d) schemaPath w) as Hf.
  assert (∀ (v : bool * World), files v.2 = files w →
    let r := (let '(valid, w0) := v in
              if negb valid
              then (Throw (runtime_error "Generated mzQC does not conform to schema"), w0)
              else if negb (writable filepath)
                   then (Throw (runtime_error ("Could not open file for writing: "
                                               +:+ filepath)), w0)
                   else match dump 2 (MzQCFile.toJson d) with
                        | Some text =>
                            (Ok (), write_file filepath text (write_file filepath "" w0))
                        | None => (Throw (type_error 316), write_file filepath "" w0)
                        end) in
    (∀ p, p ≠ filepath → files r.2 !! p = files w !! p) ∧
    (r.1 = Ok () →
     writable filepath = true ∧
     ∃ text, dump 2 (MzQCFile.toJson d) = Some text ∧
             files r.2 = <[ filepath := text ]> (files w)) ∧
    (∀ msg, r.1 = Throw (runtime_error msg) → files r.2 = files w) ∧
    (∀ id, r.1 = Throw (type_error id) →
       id = 316%Z ∧ writable filepath = true ∧
       dump 2 (MzQCFile.toJson d) = None ∧
       files r.2 = <[ filepath := "" ]> (files w)) ∧
    (v.1 = true → cerr r.2 = cerr v.2 ∧ schemaLoaded r.2 = schemaLoaded v.2 ∧
       cachedSchema r.2 = cachedSchema v.2 ∧
       (r.1 = Ok () ↔
        writable filepath = true ∧ is_Some (dump 2 (MzQCFile.toJson d))))) as Hgen.
  { intros [valid w0] Hfiles. cbn [fst snd] in *. cbv zeta.
    destruct valid; cbn [negb fst snd].
    2: { split; [by rewrite Hfiles|]. by repeat split. }
    destruct (writable filepath); cbn [negb fst snd].
    2: { split; [by rewrite Hfiles|]. split; [done|]. split; [done|]. split; [done|].
         intros _. split; [done|]. split; [done|]. split; [done|].
         split; [done|]. by intros [? _]. }
    destruct (dump 2 (MzQCFile.toJson d)) as [text|]; cbn [fst snd files write_file cerr
      schemaLoaded cachedSchema]; rewrite ?insert_insert_eq, Hfiles.
    - split; [by intros; rewrite lookup_insert_ne|].
      split; [by eauto|]. split; [done|]. split; [done|]. intros _.
      split; [done|]. split; [done|]. split; [done|]. split; [by eauto|done].
    - split; [by intros; rewrite lookup_insert_ne|].
      split; [done|]. split; [done|]. split; [by intros ? [= <-]|]. intros _.
      split; [done|]. split; [done|]. split; [done|].
      split; [done|]. by intros [_ [? ?]]. }
  destruct (empty schemaPath); cbn [negb].
  - destruct (Hgen (true, w) eq_refl) as (H1 & H2 & H3 & H4 & H5).
    split; [done|]. split; [done|]. split; [done|]. split; [done|].
    intros _. by apply H5.
  - destruct (Hgen (validateAgainstSchema parse (MzQCFile.toJson d) schemaPath w) Hf)
      as (H1 & H2 & H3 & H4 & _).
    split; [done|]. split; [done|]. split; [done|]. split; [done|]. done.
Qed.

(** X14.  When the schema loads, the validator accepts an encoded document
    exactly when its list of controlled vocabularies and at least one of
    its two lists of qualities are non-empty; saving with that schema path
    succeeds exactly when, besides, the output stream opens and the printer
    gives a text. *)
Theorem X14_validated_save_succeeds (d : MzQCFile.t) (filepath schemaPath : string)
    (w w' : World) (s : json) :
  empty schemaPath = false →
  loadSchema parse schemaPath w = (Ok s, w') →
  (validateAgainstSchema parse (MzQCFile.toJson d) schemaPath w).1
    = negb (vempty (MzQCFile.controlledVocabularies d))
      && (negb (vempty (MzQCFile.runQualities d))
          || negb (vempty (MzQCFile.setQualities d))) ∧
  ((toFile parse dump writable d filepath schemaPath w).1 = Ok () ↔
   writable filepath = true ∧ is_Some (dump 2 (MzQCFile.toJson d)) ∧
   MzQCFile.controlledVocabularies d ≠ [] ∧
   (MzQCFile.runQualities d ≠ [] ∨ MzQCFile.setQualities d ≠ [])).
Proof.
  intros Hsp Hload.
  pose proof (validateAgainstSchema_flag (MzQCFile.toJson d) schemaPath w w' s Hload)
    as Hflag. rewrite complete_encoded in Hflag.
  split; [done|]. unfold toFile. rewrite Hsp. cbn [negb].
  destruct (validateAgainstSchema parse (MzQCFile.toJson d) schemaPath w) as [valid w1].
  cbn [fst] in Hflag. subst valid.
  assert (∀ o : option string, is_Some o ↔ o ≠ None) as Hsome
    by (intros [?|]; split; [done|by eauto|by intros [? ?]|done]).
  rewrite Hsome.
  destruct (dump 2 (MzQCFile.toJson d)) as [text|];
    destruct (MzQCFile.controlledVocabularies d), (MzQCFile.runQualities d),
      (MzQCFile.setQualities d), (writable filepath); cbn; intuition congruence.
Qed.

(** X15.  Loading never changes a file, and without a schema path it
    changes nothing at all.  It returns a document only when the file is
    there, parses, and decodes to that document, and, with a schema path,
    when the parsed document passes all presence checks. *)
Theorem X15_load_frame (t0 now : Z) (filepath schemaPath : string) (w : World) :
  let r := fromFile parse t0 now filepath schemaPath w in
  files r.2 = files w ∧
  (empty schemaPath = true → r.2 = w) ∧
  (∀ d, r.1 = Ok d →
     ∃ text j, files w !! filepath = Some text ∧ parse text = inr j ∧
               MzQCFile.fromJsonStatic t0 now j = Ok d ∧
               (empty schemaPath = false → complete j = true)).
Proof.
  cbv zeta. unfold fromFile.
  destruct (files w !! filepath) as [text|]; [|done].
  destruct (parse text) as [msg|j] eqn:Hparse; [done|].
  destruct (empty schemaPath); cbn [negb].
  - split; [done|]. split; [done|]. intros d Hd. by exists text, j.
  - pose proof (validateAgainstSchema_files parse j schemaPath w) as Hf.
    pose proof (validateAgainstSchema_incomplete j schemaPath w) as Hinc.
    destruct (validateAgainstSchema parse j schemaPath w) as [valid w1].
    cbn [fst snd] in *. split; [by destruct valid|]. split; [done|].
    destruct valid; cbn [negb fst]; [|done].
    intros d Hd. exists text, j. repeat split; try done.
    destruct (complete j); [done|]. by discriminate Hinc.
Qed.

(** X16.  A file whose document lacks a required element, or is in the
    unwrapped form without the key [mzQC], cannot be loaded with a schema
    path: the schema error is thrown whether or not the schema itself
    loads.  Without a schema path the same file is decoded as it is. *)
Theorem X16_incomplete_file_loads_only_unvalidated (t0 now : Z)
    (filepath schemaPath text : string) (j : json) (w : World) :
  files w !! filepath = Some text → parse text = inr j → complete j = false →
  (empty schemaPath = false →
   (fromFile parse t0 now filepath schemaPath w).1
     = Throw (runtime_error schema_error_in)) ∧
  fromFile parse t0 now filepath "" w = (MzQCFile.fromJsonStatic t0 now j, w).
Proof.
  intros Hfile Hparse Hc. unfold fromFile. rewrite Hfile, Hparse. split; [|done].
  intros ->. cbn [negb].
  pose proof (validateAgainstSchema_incomplete j schemaPath w Hc) as Hv.
  destruct (validateAgainstSchema parse j schemaPath w) as [valid w1].
  cbn [fst] in Hv. by subst valid.
Qed.

(** X17.  Saving and then loading gives the document back: for a target
    that opens, a printer that gives a text, and a parser that reads that
    text back as the encoding; without a schema path for every document,
    and with one when the schema loads and the document has a controlled
    vocabulary and a run or set quality. *)
Theorem X17_save_then_load (t0 now : Z) (d : MzQCFile.t)
    (filepath schemaPath text : string) (w : World) :
  writable filepath = true →
  dump 2 (MzQCFile.toJson d) = Some text →
  parse text = inr (MzQCFile.toJson d) →
  empty schemaPath = true ∨
  (∃ s w', loadSchema parse schemaPath w = (Ok s, w')) ∧
  MzQCFile.controlledVocabularies d ≠ [] ∧
  (MzQCFile.runQualities d ≠ [] ∨ MzQCFile.setQualities d ≠ []) →
  let saved := toFile parse dump writable d filepath schemaPath w in
  saved.1 = Ok () ∧
  (fromFile parse t0 now filepath schemaPath saved.2).1 = Ok d.
Proof.
  intros Hw Hdump Hpd Hcase. cbv zeta.
  pose proof (MzQCFile_round_trip now d (MzQCFile.default t0) eq_refl eq_refl eq_refl)
    as Hrt.
  assert (empty schemaPath = true →
          (toFile parse dump writable d filepath schemaPath w).1 = Ok () ∧
          (fromFile parse t0 now filepath schemaPath
             (toFile parse dump writable d filepath schemaPath w).2).1 = Ok d) as Hplain.
  { intros Hsp. unfold toFile, fromFile. rewrite Hsp, Hw, Hdump. cbn.
    by rewrite lookup_insert_eq, Hpd. }
  destruct Hcase as [Hsp|[(s & w' & Hload) [Hcv Hq]]]; [by apply Hplain|].
  destruct (empty schemaPath) eqn:Hsp; [by apply Hplain|]. clear Hplain.
  assert (complete (MzQCFile.toJson d) = true) as Hc.
  { rewrite complete_encoded.
    destruct (MzQCFile.controlledVocabularies d), (MzQCFile.runQualities d),
      (MzQCFile.setQualities d); cbn; intuition congruence. }
  pose proof (validateAgainstSchema_flag (MzQCFile.toJson d) schemaPath w w' s Hload)
    as Hflag. rewrite Hc in Hflag.
  assert ((validateAgainstSchema parse (MzQCFile.toJson d) schemaPath w).2 = w') as Hw'.
  { unfold validateAgainstSchema in *. rewrite Hload in *.
    repeat case_match; try done. }
  unfold toFile. rewrite Hsp. cbn [negb].
  destruct (validateAgainstSchema parse (MzQCFile.toJson d) schemaPath w) as [valid w1].
  cbn [fst snd] in *. subst valid w1. cbn [negb]. rewrite Hw, Hdump. cbn [negb fst snd].
  split; [done|].
  set (w2 := write_file filepath text (write_file filepath "" w')).
  unfold fromFile.
  assert (files w2 !! filepath = Some text) as -> by apply lookup_insert_eq.
  rewrite Hpd, Hsp. cbn [negb].
  apply loadSchema_Ok in Hload as (Hl & Hcs & _).
  assert (loadSchema parse schemaPath w2 = (Ok s, w2)) as Hload2.
  { unfold loadSchema. cbn [schemaLoaded write_file cachedSchema w2]. by rewrite Hl, Hcs. }
  pose proof (validateAgainstSchema_flag (MzQCFile.toJson d) schemaPath _ _ s Hload2)
    as Hflag2. rewrite Hc in Hflag2.
  destruct (validateAgainstSchema parse (MzQCFile.toJson d) schemaPath w2) as [valid w3].
  cbn [fst] in Hflag2. subst valid. done.
Qed.

End boundary.

Lemma X10_schema_loaded_once_witness :
  loadSchema (λ _, inl "never") "absent.json"
    (cache_schema (JObject ∅) world_with_document)
  = (Ok (JObject ∅), cache_schema (JObject ∅) world_with_document).
Proof.
  apply (X10_schema_loaded_once parse_any (λ _, inl "never") "mzqc_schema.json"
           "absent.json" world0 (cache_schema (JObject ∅) world0)).
  - reflexivity.
  - reflexivity.
  - reflexivity.
Defined.

Lemma X11_failed_schema_load_not_cached_witness :
  loadSchema parse_any "absent.json" (write_file "absent.json" "{}" world0)
  = (Ok (JObject ∅),
     cache_schema (JObject ∅) (write_file "absent.json" "{}" world0)).
Proof.
  apply (X11_failed_schema_load_not_cached parse_any "absent.json" world0 world0
           (runtime_error ("Error loading schema file: " +:+
                           "Failed to open schema file: " +:+ "absent.json"))).
  - reflexivity.
  - reflexivity.
Defined.

Lemma X12_schema_contents_not_consulted_witness :
  (validateAgainstSchema parse_any (MzQCFile.toJson bare_document)
     "mzqc_schema.json" world0).1
  = (validateAgainstSchema parse_sample (MzQCFile.toJson bare_document)
       "doc.mzqc" world_with_document).1.
Proof.
  apply (X12_schema_contents_not_consulted parse_any parse_sample
           (MzQCFile.toJson bare_document) "mzqc_schema.json" "doc.mzqc"
           world0 (cache_schema (JObject ∅) world0)
           world_with_document
           (cache_schema (MzQCFile.toJson sample_document) world_with_document)
           (JObject ∅) (MzQCFile.toJson sample_document)).
  - reflexivity.
  - reflexivity.
Defined.

Lemma X14_validated_save_succeeds_witness :
  (toFile parse_any dump_blank (λ _, true) sample_document "out.mzqc"
     "mzqc_schema.json" world0).1 = Ok ().
Proof.
  apply (X14_validated_save_succeeds parse_any dump_blank (λ _, true) sample_document
           "out.mzqc" "mzqc_schema.json" world0 (cache_schema (JObject ∅) world0)
           (JObject ∅)).
  - reflexivity.
  - reflexivity.
  - split; [reflexivity|]. split; [by exists ""|].
    split; [discriminate|]. left. discriminate.
Defined.

Lemma X16_incomplete_file_loads_only_unvalidated_witness :
  (fromFile parse_any 0 0 "doc.mzqc" "mzqc_schema.json" world_with_document).1
    = Throw (runtime_error schema_error_in).
Proof.
  apply (X16_incomplete_file_loads_only_unvalidated parse_any 0 0 "doc.mzqc"
           "mzqc_schema.json" "{}" (JObject ∅) world_with_document).
  - reflexivity.
  - reflexivity.
  - reflexivity.
  - reflexivity.
Defined.

Lemma X17_save_then_load_witness :
  (fromFile parse_sample 0 0 "out.mzqc" "doc.mzqc"
     (toFile parse_sample dump_blank (λ _, true) sample_document "out.mzqc"
        "doc.mzqc" world_with_document).2).1 = Ok sample_document.
Proof.
  apply (X17_save_then_load parse_sample dump_blank (λ _, true) 0 0 sample_document
           "out.mzqc" "doc.mzqc" "" world_with_document).
  - reflexivity.
  - reflexivity.
  - reflexivity.
  - right. split; [|split; [discriminate|left; discriminate]].
    exists (MzQCFile.toJson sample_document),
      (cache_schema (MzQCFile.toJson sample_document) world_with_document).
    reflexivity.
Defined.

(** * Further properties of the term cache *)

Section term_cache_extras.
Import CvTermCache.

(** X18.  The count -1 is returned exactly for a file that does not open;
    the cache is then left as it was, but the name of the file is recorded
    as the current source all the same. *)
Theorem X18_missing_ontology_file (filename : string) (fs : gmap string string)
    (self : CvTermCache.t) :
  ((loadFromOboFile filename fs self).1 = (-1)%Z ↔ fs !! filename = None) ∧
  (fs !! filename = None →
   loadFromOboFile filename fs self
     = ((-1)%Z, {| currentOboFile := filename; termCache := termCache self |})) ∧
  currentOboFile (loadFromOboFile filename fs self).2 = filename.
Proof.
  unfold loadFromOboFile, parseOboFile.
  destruct (fs !! filename) as [text|]; cbn; repeat split; try done; lia.
Qed.

(** X19.  Loading the same source a second time changes nothing: the cache
    and the count are those of the first load. *)
Theorem X19_reload_same_source (filename : string) (fs : gmap string string)
    (self : CvTermCache.t) :
  loadFromOboFile filename fs (loadFromOboFile filename fs self).2
    = loadFromOboFile filename fs self.
Proof.
  unfold loadFromOboFile, parseOboFile.
  destruct (fs !! filename) as [text|]; [|done]. cbn.
  rewrite (scan_lines_union (getlines text) (scan_lines _ _)).
  rewrite (scan_lines_union (getlines text) (termCache self)).
  by rewrite (assoc_L (∪)), (idemp_L (∪)).
Qed.

(** X20.  A load never forgets: every accession of the cache is still in
    it afterwards, the count returned is at least the number of terms held
    before, and a record stays as it was unless the source defines its
    accession. *)
Theorem X20_load_never_forgets (filename text : string) (fs : gmap string string)
    (self : CvTermCache.t) :
  fs !! filename = Some text →
  let loaded := loadFromOboFile filename fs self in
  dom (termCache self) ⊆ dom (termCache loaded.2) ∧
  (Z.of_nat (size (termCache self)) ≤ loaded.1)%Z ∧
  (∀ k d, termCache self !! k = Some d →
          termCache (loadFromOboFile filename fs CvTermCache.default).2 !! k = None →
          termCache loaded.2 !! k = Some d).
Proof.
  intros Hf. cbv zeta. unfold loadFromOboFile, parseOboFile. rewrite Hf. cbn.
  rewrite (scan_lines_union (getlines text) (termCache self)).
  split; [|split].
  - rewrite dom_union_L. apply union_subseteq_r.
  - apply inj_le. rewrite <-!size_dom. apply subseteq_size.
    rewrite dom_union_L. apply union_subseteq_r.
  - intros k d Hk Hnone. rewrite lookup_union_r; done.
Qed.

Lemma scan_lines_invariant (P : string → CvTermDetails.t → Prop)
    (Q : CvTermDetails.t → Prop) (lines : list string)
    (c : gmap string CvTermDetails.t) :
  Q CvTermDetails.default →
  (∀ d l, Q d → Q (processLine d l)) →
  (∀ d, Q d → CvTermDetails.accession d ≠ "" → P (CvTermDetails.accession d) d) →
  map_Forall P c → map_Forall P (scan_lines lines c).
Proof.
  intros Hdef Hstep HPQ Hc. unfold scan_lines.
  assert (∀ st, Q (currentTerm st) → map_Forall P (cache st) → map_Forall P (flush st))
    as Hflush.
  { intros st Hq Hm. unfold flush.
    destruct (inTermDef st); cbn; [|done].
    destruct (empty _) eqn:He; cbn; [done|].
    apply map_Forall_insert_2; [|done]. apply HPQ; [done|].
    intros Heq. by rewrite Heq in He. }
  apply Hflush;
    generalize {| currentTerm := CvTermDetails.default; inTermDef := false; cache := c |}
      (Hdef : Q (currentTerm {| currentTerm := CvTermDetails.default;
                                inTermDef := false; cache := c |}))
      (Hc : map_Forall P (cache {| currentTerm := CvTermDetails.default;
                                   inTermDef := false; cache := c |})).
  all: induction lines as [|l lines IH]; intros st Hq Hm; cbn [fold_left]; try done.
  all: apply IH; unfold step; repeat case_match; cbn; auto.
Qed.

(** X21.  The cache stays keyed by accession: if every record sits under
    its own, non-empty accession before a load, so does every record after
    it; the fresh cache is so keyed. *)
Theorem X21_cache_keyed_by_accession (filename : string) (fs : gmap string string)
    (self : CvTermCache.t) :
  keyed (termCache self) →
  keyed (termCache (loadFromOboFile filename fs self).2).
Proof.
  unfold loadFromOboFile, parseOboFile, keyed.
  destruct (fs !! filename) as [text|]; [|done]. cbn. intros Hself.
  apply (scan_lines_invariant
           (λ k d, CvTermDetails.accession d = k ∧ k ≠ "") (λ _, True)); done.
Qed.

Lemma processLine_unfilled (d : CvTermDetails.t) (l : string) :
  unfilled d → unfilled (processLine d l).
Proof. unfold unfilled, processLine. by repeat case_match. Qed.

(** X22.  No line of a source fills the relationships, the value type or
    the unit of a term: in a cache whose records have them empty, the
    records still have them empty after a load. *)
Theorem X22_fields_never_filled (filename : string) (fs : gmap string string)
    (self : CvTermCache.t) :
  map_Forall (λ _ d, unfilled d) (termCache self) →
  map_Forall (λ _ d, unfilled d) (termCache (loadFromOboFile filename fs self).2).
Proof.
  unfold loadFromOboFile, parseOboFile.
  destruct (fs !! filename) as [text|]; [|done]. cbn. intros Hself.
  apply (scan_lines_invariant (λ _ d, unfilled d) unfilled);
    auto using processLine_unfilled. done.
Qed.

(** X23.  A text without a line equal to the marker defines no term,
    whatever [id:] lines it has: the cache is left as it was and the count
    is its size. *)
Theorem X23_no_marker_no_term (filename text : string) (fs : gmap string string)
    (self : CvTermCache.t) :
  fs !! filename = Some text →
  Forall (λ l, l ≠ marker) (getlines text) →
  loadFromOboFile filename fs self
    = (Z.of_nat (size (termCache self)),
       {| currentOboFile := filename; termCache := termCache self |}).
Proof.
  intros Hf Hno. unfold loadFromOboFile, parseOboFile. rewrite Hf. cbn.
  replace (getlines text) with (lines_of (getlines text) [])
    by (unfold lines_of; cbn; by rewrite app_nil_r).
  by rewrite scan_lines_blocks.
Qed.

Lemma step_skipped (st : scan) (l : string) : skipped l = true → step st l = st.
Proof. intros Hs. unfold step. by rewrite Hs. Qed.

Lemma fold_step_filter (lines : list string) (st : scan) :
  fold_left step (filter (λ l, skipped l = false) lines) st = fold_left step lines st.
Proof.
  revert st. induction lines as [|l lines IH]; intros st; [done|].
  destruct (skipped l) eqn:Hs.
  - rewrite filter_cons_False by (by rewrite Hs). cbn [fold_left].
    by rewrite step_skipped.
  - rewrite filter_cons_True by done. cbn [fold_left]. apply IH.
Qed.

(** X24.  Empty lines and lines that start with an exclamation mark count
    for nothing: two sources with the same remaining lines give the same
    cache and the same count. *)
Theorem X24_blank_and_comment_lines_ignored (f1 f2 t1 t2 : string)
    (fs : gmap string string) (self : CvTermCache.t) :
  fs !! f1 = Some t1 → fs !! f2 = Some t2 →
  filter (λ l, skipped l = false) (getlines t1)
    = filter (λ l, skipped l = false) (getlines t2) →
  (loadFromOboFile f1 fs self).1 = (loadFromOboFile f2 fs self).1 ∧
  termCache (loadFromOboFile f1 fs self).2 = termCache (loadFromOboFile f2 fs self).2.
Proof.
  intros H1 H2 Heq. unfold loadFromOboFile, parseOboFile. rewrite H1, H2. cbn.
  assert (scan_lines (getlines t1) (termCache self)
          = scan_lines (getlines t2) (termCache self)) as ->; [|done].
  unfold scan_lines.
  by rewrite <-(fold_step_filter (getlines t1)), <-(fold_step_filter (getlines t2)), Heq.
Qed.

Lemma starts_with_exclusive (l : string) :
  (starts_with "id:" l = true → starts_with "name:" l = false ∧
     starts_with "def:" l = false ∧ starts_with "is_a:" l = false) ∧
  (starts_with "name:" l = true → starts_with "def:" l = false ∧
     starts_with "is_a:" l = false) ∧
  (starts_with "def:" l = true → starts_with "is_a:" l = false).
Proof.
  destruct l as [|a [|b l]]; cbn [starts_with]; rewrite ?andb_false_r; [done..|].
  destruct (Ascii.eqb_spec "i" a) as [<-|_]; [by destruct (Ascii.eqb_spec "d" b) as [<-|_]|].
  destruct (Ascii.eqb_spec "n" a) as [<-|_]; [done|].
  destruct (Ascii.eqb_spec "d" a) as [<-|_]; done.
Qed.

(** X25.  The record that the lines of a block build: the accession, the
    name and the definition are what follows [id:], [name:] and [def:] on
    the last line with that prefix (empty when there is none), kept as
    written, and the parent terms are what follows [is_a:] on every such
    line, in the order of the lines. *)
Theorem X25_record_of_block (b : list string) :
  let d := fold_left processLine b CvTermDetails.default in
  CvTermDetails.accession d = last_after "id:" b ∧
  CvTermDetails.name d = last_after "name:" b ∧
  CvTermDetails.definition d = last_after "def:" b ∧
  CvTermDetails.parentTerms d
    = substr 5 <$> filter (λ l, starts_with "is_a:" l = true) b.
Proof.
  cbv zeta. unfold last_after.
  induction b as [|l b (IHa & IHn & IHd & IHp)] using rev_ind; [done|].
  rewrite fold_left_app, !filter_app, !filter_cons, !filter_nil. cbn [fold_left].
  set (d := fold_left processLine b CvTermDetails.default) in *.
  unfold processLine.
  destruct (starts_with_exclusive l) as (Hid & Hname & Hdef).
  destruct (starts_with "id:" l) eqn:Ei.
  { destruct (Hid eq_refl) as (-> & -> & ->).
    repeat case_decide; try done. by rewrite !app_nil_r, last_snoc. }
  destruct (starts_with "name:" l) eqn:En.
  { destruct (Hname eq_refl) as (-> & ->).
    repeat case_decide; try done. by rewrite !app_nil_r, last_snoc. }
  destruct (starts_with "def:" l) eqn:Ed.
  { rewrite (Hdef eq_refl).
    repeat case_decide; try done. by rewrite !app_nil_r, last_snoc. }
  destruct (starts_with "is_a:" l) eqn:Ep.
  { repeat case_decide; try done. rewrite !app_nil_r, fmap_app. cbn. by rewrite IHp. }
  repeat case_decide; try done. by rewrite !app_nil_r.
Qed.

End term_cache_extras.

Lemma X20_load_never_forgets_witness :
  (Z.of_nat (size (CvTermCache.termCache
                     (CvTermCache.loadFromOboFile "a.obo" ontology_files
                        CvTermCache.default).2))
   ≤ (CvTermCache.loadFromOboFile "b.obo" ontology_files
        (CvTermCache.loadFromOboFile "a.obo" ontology_files CvTermCache.default).2).1)%Z.
Proof.
  apply (X20_load_never_forgets "b.obo" source_B ontology_files).
  vm_compute. reflexivity.
Defined.

Lemma X21_cache_keyed_by_accession_witness :
  keyed (CvTermCache.termCache
           (CvTermCache.loadFromOboFile "b.obo" ontology_files CvTermCache.default).2).
Proof. apply X21_cache_keyed_by_accession. intros k d Hk. discriminate Hk. Defined.

Lemma X22_fields_never_filled_witness :
  map_Forall (λ _ d, unfilled d)
    (CvTermCache.termCache
       (CvTermCache.loadFromOboFile "b.obo" ontology_files CvTermCache.default).2).
Proof. apply X22_fields_never_filled. intros k d Hk. discriminate Hk. Defined.

Lemma X23_no_marker_no_term_witness :
  CvTermCache.loadFromOboFile "plain.obo" sample_sources CvTermCache.default
  = (0%Z, {| CvTermCache.currentOboFile := "plain.obo"; CvTermCache.termCache := ∅ |}).
Proof.
  apply (X23_no_marker_no_term "plain.obo" source_plain sample_sources).
  - vm_compute. reflexivity.
  - vm_compute. repeat constructor; discriminate.
Defined.

Lemma X24_blank_and_comment_lines_ignored_witness :
  CvTermCache.termCache
    (CvTermCache.loadFromOboFile "c.obo" sample_sources CvTermCache.default).2
  = CvTermCache.termCache
      (CvTermCache.loadFromOboFile "bare.obo" sample_sources CvTermCache.default).2.
Proof.
  apply (X24_blank_and_comment_lines_ignored "c.obo" "bare.obo" source_C source_C_bare).
  - vm_compute. reflexivity.
  - vm_compute. reflexivity.
  - vm_compute. reflexivity.
Defined.

(** * Properties of the example program *)

Section example_extras.
Import Example.

Lemma getline_comma_field (f rest : string) :
  comma_free f = true →
  getline_comma (f +:+ String "," rest) = (f, Some rest).
Proof.
  induction f as [|c f IH]; [done|]. cbn [comma_free].
  intros [Hc Hf]%andb_true_iff.
  change (String c f +:+ String "," rest) with (String c (f +:+ String "," rest)).
  cbn [getline_comma]. destruct (Ascii.eqb c ","); [done|]. by rewrite IH.
Qed.

Lemma getline_comma_last (f : string) :
  comma_free f = true → getline_comma f = (f, None).
Proof.
  induction f as [|c f IH]; [done|]. cbn [comma_free].
  intros [Hc Hf]%andb_true_iff.
  cbn [getline_comma]. destruct (Ascii.eqb c ","); [done|]. by rewrite IH.
Qed.

Lemma read_field_stream (f : string) (fs : list string) :
  comma_free f = true →
  read_field (Some (String.concat "," (f :: fs))) = (f, stream_of fs).
Proof.
  intros Hf. destruct fs as [|g fs].
  - cbn. destruct f; [done|]. by rewrite getline_comma_last.
  - trans (getline_comma (f +:+ String "," (String.concat "," (g :: fs)))).
    + by destruct f.
    + by rewrite getline_comma_field.
Qed.

Lemma read_field_next (fs : list string) :
  Forall (λ f, comma_free f = true) fs →
  read_field (stream_of fs) = (nth 0 fs "", stream_of (tail fs)).
Proof.
  intros Hfs. destruct Hfs as [|f fs Hf _]; [done|].
  by apply read_field_stream.
Qed.

Lemma read_field_first (fs : list string) :
  Forall (λ f, comma_free f = true) fs →
  read_field (Some (String.concat "," fs)) = (nth 0 fs "", stream_of (tail fs)).
Proof.
  intros Hfs. destruct Hfs as [|f fs Hf _]; [done|].
  by apply read_field_stream.
Qed.

(** X26.  The metric made from a line of comma-separated fields: its
    payload holds the first, second, fourth and fifth field under [RT],
    [peptide], [MZ] and [deltaPPM]; the third field and every field after
    the fifth are dropped, and a field that the line does not have is the
    empty string. *)
Theorem X26_metric_of_row (fs : list string) :
  Forall (λ f, comma_free f = true) fs →
  metric_of_line (String.concat "," fs) =
    QualityMetric.mk "QC:0000000" "Example Metric" "Example description"
      (Json.object_of [("RT", JString (nth 0 fs ""));
                       ("peptide", JString (nth 1 fs ""));
                       ("MZ", JString (nth 3 fs ""));
                       ("deltaPPM", JString (nth 4 fs ""))])
      "unit".
Proof.
  intros Hfs. unfold metric_of_line.
  assert (∀ l : list string, Forall (λ f, comma_free f = true) l →
            Forall (λ f, comma_free f = true) (tail l)) as Htail.
  { intros l Hl. destruct Hl; [constructor|done]. }
  rewrite read_field_first by done.
  rewrite !read_field_next by auto.
  destruct fs as [|f0 [|f1 [|f2 [|f3 [|f4 fs]]]]]; reflexivity.
Qed.

Variable dump : nat → json → option string.
Variable writable : string → bool.

(** X27.  How the example program ends.  It returns 1, with every file as
    it was, when the input file is missing or the output stream does not
    open.  Otherwise the output file has been created or truncated, and
    the program returns 0 with the output file holding the encoding
    printed with indentation 4, unless the printer throws: then the
    exception terminates the program and the output file is left empty.
    The document is dated by the clock and has one run quality with one
    metric per line after the header; its encoding passes the presence
    checks of the validator and decodes back to the document. *)
Theorem X27_example_output (now : Z) (w : World) :
  let r := main dump writable now w in
  (files w !! csv_path = None ∨ writable output_path = false →
   r.1 = Returned 1 ∧ files r.2 = files w) ∧
  (r.1 = Returned 0 ↔
   ∃ text out, files w !! csv_path = Some text ∧ writable output_path = true ∧
     dump 4 (MzQCFile.toJson (document_of now (CvTermCache.getlines text))) = Some out) ∧
  (∀ text, files w !! csv_path = Some text → writable output_path = true →
     let doc := document_of now (CvTermCache.getlines text) in
     match dump 4 (MzQCFile.toJson doc) with
     | Some out =>
         r.1 = Returned 0 ∧ files r.2 = <[ output_path := out ]> (files w)
     | None =>
         r.1 = Terminated (type_error 316) ∧
         files r.2 = <[ output_path := "" ]> (files w)
     end ∧
     MzQCFile.creationDate doc = MzQCFile.getCurrentIsoTime now ∧
     (∃ run, MzQCFile.runQualities doc = [run] ∧
             length (RunQuality.metrics run)
               = (length (CvTermCache.getlines text) - 1)%nat) ∧
     complete (MzQCFile.toJson doc) = true ∧
     ∀ t0 t1, MzQCFile.fromJsonStatic t0 t1 (MzQCFile.toJson doc) = Ok doc).
Proof.
  cbv zeta. unfold main.
  destruct (files w !! csv_path) as [text|] eqn:Hcsv.
  - destruct (writable output_path) eqn:Hw; cbn [negb fst snd files write_file log].
    + split; [by intros [?|?]|]. split.
      * destruct (dump 4 _) as [out|] eqn:Hd; cbn [fst]; split; try done.
        -- intros _. by exists text, out.
        -- intros (? & ? & [= <-] & _ & Hd'). congruence.
      * intros ? [= <-] _. split.
        { destruct (dump 4 _) as [out|]; cbn [fst snd files write_file];
            by rewrite ?insert_insert_eq. }
        split; [done|]. split.
        { eexists. split; [reflexivity|]. cbn [RunQuality.metrics].
          rewrite length_fmap. destruct (CvTermCache.getlines text); cbn; lia. }
        split; [by rewrite complete_encoded|].
        intros t0 t1. by apply MzQCFile_round_trip.
    + split; [done|]. split; [|done].
      split; [done|]. by intros (? & ? & _ & ? & _).
  - cbn [negb fst snd files write_file log].
    split; [done|]. split; [|done].
    split; [done|]. by intros (? & ? & ? & _).
Qed.

End example_extras.

Lemma X26_metric_of_row_witness :
  QualityMetric.value (Example.metric_of_line "12.3,PEPTIDE,1,500.2,0.4,extra")
  = Json.object_of [("RT", JString "12.3"); ("peptide", JString "PEPTIDE");
                    ("MZ", JString "500.2"); ("deltaPPM", JString "0.4")].
Proof.
  change "12.3,PEPTIDE,1,500.2,0.4,extra" with (String.concat "," sample_row).
  rewrite (X26_metric_of_row sample_row); [reflexivity|].
  repeat constructor.
Defined.
